(** * Supervisory control loop of the autocycle stability firmware

    A shallow embedding of [src/main.cpp]: the global variables, the
    collaborators the loop drives (balance actuator, drive actuator,
    indicator), the seven-state supervisor in [loop] and the state actions,
    followed by the properties of one tick and of the reachable states. *)

From Stdlib Require Import ZArith List Bool Lia Ascii.
From Stdlib Require Import Floats.SpecFloat.
Import ListNotations.
Open Scope Z_scope.

(** ** Numbers

    [float] is IEEE binary32 on the target and [double] is binary64.  Both
    are values of [spec_float]; the precision is chosen by the operation. *)

Definition float := spec_float.
Definition double := spec_float.

Definition f32_prec : Z := 24.
Definition f32_emax : Z := 128.
Definition f64_prec : Z := 53.
Definition f64_emax : Z := 1024.

(** A [float] literal [m * 2^e] and a [double] literal [m * 2^e]. *)
Definition flt (m e : Z) : float := binary_normalize f32_prec f32_emax m e false.
Definition dbl (m e : Z) : double := binary_normalize f64_prec f64_emax m e false.

(** The implicit conversion of a [float] operand to [double]: the value is
    kept, the mantissa is brought to 53 bits. *)
Definition to_double (x : float) : double :=
  match x with
  | S754_finite s m e =>
      binary_normalize f64_prec f64_emax (cond_Zopp s (Zpos m)) e s
  | _ => x
  end.

(** [fabs(x)] on a [float] argument. *)
Definition fabs (x : float) : double := SFabs (to_double x).

(** [a > b] and [a < b] on doubles; both are false when an operand is NaN. *)
Definition fgt (a b : double) : bool := SFltb b a.
Definition flt_than (a b : double) : bool := SFltb a b.

(** [a - b] on floats. *)
Definition fsub (a b : float) : float := SFsub f32_prec f32_emax a b.
Definition fdiv (a b : float) : float := SFdiv f32_prec f32_emax a b.

(** [(float) n] for an integer [n]. *)
Definition float_of_int (n : Z) : float :=
  binary_normalize f32_prec f32_emax n 0 false.

Definition fzero : float := S754_zero false.

(** Wrap-around of the integer types the loop uses. *)
Definition to_u8 (x : Z) : Z := x mod 256.
Definition to_i32 (x : Z) : Z := (x + 2 ^ 31) mod 2 ^ 32 - 2 ^ 31.
(** [~x] on a 32-bit [unsigned]. *)
Definition u32_not (x : Z) : Z := Z.lxor x (2 ^ 32 - 1).
(** [u & bit] as a condition: non-zero is true. *)
Definition bit_set (bit u : Z) : bool := negb (Z.land u bit =? 0).

(** ** Constants of main.cpp *)

(* States *)
Definition IDLE : Z := 0.
Definition CALIB : Z := 1.
Definition MANUAL : Z := 2.
Definition ASSIST : Z := 3.
Definition AUTO : Z := 4.
Definition FALLEN : Z := 5.
Definition E_STOP : Z := 6.

(* State colors *)
Definition RGB : Type := (Z * Z * Z)%type.
Definition RGB_IDLE_P : RGB := (255, 255, 0).
Definition RGB_CALIB_P : RGB := (128, 0, 128).
Definition RGB_MANUAL_P : RGB := (255, 165, 0).
Definition RGB_ASSIST_P : RGB := (34, 139, 34).
Definition RGB_AUTO_P : RGB := (0, 255, 0).
Definition RGB_FALLEN_P : RGB := (255, 140, 0).
Definition RGB_E_STOP_P : RGB := (255, 0, 0).
Definition RGB_IDLE_B : RGB := (0, 0, 255).
Definition RGB_CALIB_B : RGB := (128, 255, 128).
Definition RGB_MANUAL_B : RGB := (0, 89, 255).
Definition RGB_ASSIST_B : RGB := (140, 34, 140).
Definition RGB_AUTO_B : RGB := (255, 0, 255).
Definition RGB_FALLEN_B : RGB := (255, 0, 0).
Definition RGB_E_STOP_B : RGB := (0, 0, 255).

(* User request bit flags *)
Definition R_CALIB : Z := 1.
Definition R_MANUAL : Z := 2.
Definition R_STOP : Z := 4.
Definition R_RESUME : Z := 8.

(** [PI] comes from Arduino.h, which is not part of the sources: it is the
    binary64 number nearest to 3.1415926535897932384626433832795. *)
Definition PI : double := S754_finite false 7074237752028440 (-51).

(* State transition constants *)
Definition FTHRESH : double := SFdiv f64_prec f64_emax PI (dbl 4 0).
Definition UTHRESH : double := SFdiv f64_prec f64_emax PI (dbl 20 0).
Definition HIGH_V_THRESH : double := dbl 5 (-1).
Definition LOW_V_THRESH : double := dbl 2 0.

(** ** Collaborators

    The device classes (TorqueMotor.h, DriveMotor.h, Indicator.h) are not
    part of the sources.  Each is a record of what the loop can set and read
    back, with the setters the loop calls. *)

(** Modelled from the spec: the operation modes of the balance actuator
    (CANOpen.h is missing); [OP_PROFILE_POSITION] is position tracking and
    [OP_PROFILE_TORQUE] is torque tracking. *)
Inductive OperationMode : Type :=
  | OP_PROFILE_POSITION
  | OP_PROFILE_TORQUE.

(** Modelled from the spec: the balance actuator (TorqueMotor.h is missing)
    exposes its mode, position, velocity and torque, a position and a torque
    setpoint, and an enable acknowledgment that is polled.  [tm_acks] holds
    the answers the drive gives to the coming [enableOperation()] polls. *)
Record TorqueMotor : Type := mkTM {
  tm_mode : OperationMode;
  tm_enabled : bool;
  tm_position_cmd : float;
  tm_torque_cmd : float;
  tm_position : float;
  tm_velocity : float;
  tm_torque : float;
  tm_acks : list bool
}.

(** Modelled from the spec: the drive actuator (DriveMotor.h is missing) is a
    speed setpoint. *)
Record DriveMotor : Type := mkDM {
  dm_speed_cmd : float
}.

(** Modelled from the spec: the indicator (Indicator.h is missing) holds a
    passive colour, a blink colour and an optional pulse (on, off). *)
Record Indicator : Type := mkInd {
  ind_passive : RGB;
  ind_blink : RGB;
  ind_pulse : option (Z * Z)
}.

(** ** Observable calls *)

Inductive Action : Type :=
  | A_idle | A_calibrate | A_manual | A_assist
  | A_automatic | A_fallen | A_emergency_stop.

(** "State variables" and "Control variables" of main.cpp. *)
Record Sensed : Type := mkSensed {
  phi : float;      (* Roll angle (rad) *)
  del : float;      (* Steering angle (rad) *)
  dphi : float;     (* Roll angle rate (rad/s) *)
  ddel : float;     (* Steering angle rate (rad/s) *)
  v : float;        (* Velocity (m/s) *)
  torque : float    (* Current torque (Nm) *)
}.

(** "Reference variables" of main.cpp. *)
Record Refs : Type := mkRefs {
  phi_r : float;
  del_r : float;
  v_r : float
}.

Inductive Event : Type :=
  | Ev_action (a : Action)
  | Ev_setMode (m : OperationMode)
  | Ev_enableOperation (ok : bool)
  | Ev_setPosition (x : float)
  | Ev_setTorque (u : float)
  | Ev_setSpeed (x : float)
  | Ev_calibrateGyros (ok : bool)
  | Ev_calibrateAccel (ok : bool)
  | Ev_beepstring (bits : Z)
  | Ev_report (st : Z) (s : Sensed).

(** ** The state of the program *)

Record World : Type := mkWorld {
  state : Z;                    (* static uint8_t state in loop() *)
  user_req : Z;                 (* uint8_t user request flags *)
  sensed : Sensed;
  refs : Refs;
  t0 : option Z;                (* static long t0 in automatic() *)
  torque_motor : TorqueMotor;
  drive_motor : DriveMotor;
  indicator : Indicator;
  trace : list Event            (* calls made so far, oldest first *)
}.

Definition set_state (s : Z) (w : World) : World :=
  mkWorld s (user_req w) (sensed w) (refs w) (t0 w)
          (torque_motor w) (drive_motor w) (indicator w) (trace w).
Definition set_user_req (u : Z) (w : World) : World :=
  mkWorld (state w) u (sensed w) (refs w) (t0 w)
          (torque_motor w) (drive_motor w) (indicator w) (trace w).
Definition set_sensed (s : Sensed) (w : World) : World :=
  mkWorld (state w) (user_req w) s (refs w) (t0 w)
          (torque_motor w) (drive_motor w) (indicator w) (trace w).
Definition set_refs (r : Refs) (w : World) : World :=
  mkWorld (state w) (user_req w) (sensed w) r (t0 w)
          (torque_motor w) (drive_motor w) (indicator w) (trace w).
Definition set_t0 (t : option Z) (w : World) : World :=
  mkWorld (state w) (user_req w) (sensed w) (refs w) t
          (torque_motor w) (drive_motor w) (indicator w) (trace w).
Definition set_torque_motor (m : TorqueMotor) (w : World) : World :=
  mkWorld (state w) (user_req w) (sensed w) (refs w) (t0 w)
          m (drive_motor w) (indicator w) (trace w).
Definition set_drive_motor (m : DriveMotor) (w : World) : World :=
  mkWorld (state w) (user_req w) (sensed w) (refs w) (t0 w)
          (torque_motor w) m (indicator w) (trace w).
Definition set_indicator (i : Indicator) (w : World) : World :=
  mkWorld (state w) (user_req w) (sensed w) (refs w) (t0 w)
          (torque_motor w) (drive_motor w) i (trace w).
Definition log (e : Event) (w : World) : World :=
  mkWorld (state w) (user_req w) (sensed w) (refs w) (t0 w)
          (torque_motor w) (drive_motor w) (indicator w) (trace w ++ [e]).

(** ** A state monad with non-termination

    A computation maps the world to a result and a new world, or to [None]
    when it does not return (the wait for the actuator never ends). *)

Definition M (A : Type) : Type := World -> option (A * World).

Definition ret {A} (a : A) : M A := fun w => Some (a, w).
Definition bind {A B} (m : M A) (k : A -> M B) : M B :=
  fun w => match m w with
           | Some (a, w') => k a w'
           | None => None
           end.
Definition gets {A} (f : World -> A) : M A := fun w => Some (f w, w).
Definition modify (f : World -> World) : M unit := fun w => Some (tt, f w).
Definition when (b : bool) (m : M unit) : M unit := if b then m else ret tt.

Declare Scope m_scope.
Delimit Scope m_scope with M.
Notation "x <- m ;; k" := (bind m (fun x => k))
  (at level 61, m at next level, right associativity) : m_scope.
Notation "m ;; k" := (bind m (fun _ => k))
  (at level 61, right associativity) : m_scope.
Open Scope m_scope.

(** [if (c) { m }] where the condition reads the globals. *)
Definition If (c : World -> bool) (m : M unit) : M unit :=
  b <- gets c ;; when b m.

Definition assign_state (s : Z) : M unit := modify (set_state s).

(** ** What the hardware delivers during one tick *)

Inductive Telemetry : Type :=
  | NoData                                   (* TELEMETRY.available() == 0 *)
  | Data (c : Z) (parsed : float) (next : Z).
      (* the byte read, what Serial.parseFloat() and Serial.read() return
         after it *)

Record Inputs : Type := mkInputs {
  in_phi : float;          (* atan2(imu.accelY(), imu.accelZ()) *)
  in_gyroX : float;
  in_position : float;     (* readings of the balance actuator *)
  in_velocity : float;
  in_torque : float;
  in_acks : list bool;     (* its answers to enableOperation() *)
  in_speed : float;        (* drive_motor->getSpeed() *)
  in_gyros_ok : bool;      (* imu.calibrateGyros() *)
  in_accel_ok : bool;      (* imu.calibrateAccel(0, 0, GRAV) *)
  in_millis_init : Z;      (* millis() in the initialiser of t0 *)
  in_millis : Z;           (* millis() in automatic() *)
  in_control : float -> float -> float -> float -> float -> float -> float
               -> float;   (* controller.control *)
  in_telemetry : Telemetry
}.

(** ** Indicator *)

Module Ind.
Definition setPassiveRGB (c : RGB) : M unit :=
  modify (fun w => set_indicator
    (mkInd c (ind_blink (indicator w)) (ind_pulse (indicator w))) w).
Definition setBlinkRGB (c : RGB) : M unit :=
  modify (fun w => set_indicator
    (mkInd (ind_passive (indicator w)) c (ind_pulse (indicator w))) w).
Definition setPulse (on off : Z) : M unit :=
  modify (fun w => set_indicator
    (mkInd (ind_passive (indicator w)) (ind_blink (indicator w))
           (Some (on, off))) w).
Definition disablePulse : M unit :=
  modify (fun w => set_indicator
    (mkInd (ind_passive (indicator w)) (ind_blink (indicator w)) None) w).
Definition beepstring (bits : Z) : M unit :=
  modify (log (Ev_beepstring bits)).
End Ind.

(** ** Balance actuator *)

Module TM.
Definition with_mode (m : OperationMode) (t : TorqueMotor) : TorqueMotor :=
  mkTM m (tm_enabled t) (tm_position_cmd t) (tm_torque_cmd t)
       (tm_position t) (tm_velocity t) (tm_torque t) (tm_acks t).
Definition with_position_cmd (x : float) (t : TorqueMotor) : TorqueMotor :=
  mkTM (tm_mode t) (tm_enabled t) x (tm_torque_cmd t)
       (tm_position t) (tm_velocity t) (tm_torque t) (tm_acks t).
Definition with_torque_cmd (u : float) (t : TorqueMotor) : TorqueMotor :=
  mkTM (tm_mode t) (tm_enabled t) (tm_position_cmd t) u
       (tm_position t) (tm_velocity t) (tm_torque t) (tm_acks t).
Definition answered (ok : bool) (rest : list bool) (t : TorqueMotor)
  : TorqueMotor :=
  mkTM (tm_mode t) ok (tm_position_cmd t) (tm_torque_cmd t)
       (tm_position t) (tm_velocity t) (tm_torque t) rest.
Definition refreshed (i : Inputs) (t : TorqueMotor) : TorqueMotor :=
  mkTM (tm_mode t) (tm_enabled t) (tm_position_cmd t) (tm_torque_cmd t)
       (in_position i) (in_velocity i) (in_torque i) (in_acks i).

(** [torque_motor->update()]: the readings of this tick arrive. *)
Definition update (i : Inputs) : M unit :=
  modify (fun w => set_torque_motor (refreshed i (torque_motor w)) w).

Definition setMode (m : OperationMode) : M unit :=
  modify (fun w =>
    log (Ev_setMode m) (set_torque_motor (with_mode m (torque_motor w)) w)).

(** One poll of [enableOperation()] answered [ok]. *)
Definition polled (ok : bool) (rest : list bool) (w : World) : World :=
  log (Ev_enableOperation ok)
      (set_torque_motor (answered ok rest (torque_motor w)) w).

(** [while (!torque_motor->enableOperation());] over the answers the drive
    will give: the loop returns at the first [true] and never returns when
    there is none. *)
Fixpoint wait_loop (acks : list bool) : M unit :=
  fun w =>
    match acks with
    | [] => None
    | ok :: rest =>
        if ok then Some (tt, polled ok rest w)
        else wait_loop rest (polled ok rest w)
    end.

Definition wait_enableOperation : M unit :=
  fun w => wait_loop (tm_acks (torque_motor w)) w.

Definition setPosition (x : float) : M unit :=
  modify (fun w =>
    log (Ev_setPosition x)
        (set_torque_motor (with_position_cmd x (torque_motor w)) w)).

Definition setTorque (u : float) : M unit :=
  modify (fun w =>
    log (Ev_setTorque u)
        (set_torque_motor (with_torque_cmd u (torque_motor w)) w)).
End TM.

(** ** Drive actuator *)

Module DM.
Definition setSpeed (x : float) : M unit :=
  modify (fun w => log (Ev_setSpeed x) (set_drive_motor (mkDM x) w)).
End DM.

(** ** State actions *)

Definition idle : M unit := modify (log (Ev_action A_idle)).

Definition calibrate (i : Inputs) : M unit :=
  modify (log (Ev_action A_calibrate)) ;;
  modify (log (Ev_calibrateGyros (in_gyros_ok i))) ;;
  (if in_gyros_ok i then Ind.beepstring 119      (* 0b01110111 *)
   else Ind.beepstring 136) ;;                   (* 0b10001000 *)
  modify (log (Ev_calibrateAccel (in_accel_ok i))) ;;
  (if in_accel_ok i then Ind.beepstring 170      (* 0b10101010 *)
   else Ind.beepstring 51).                      (* 0b00110011 *)

Definition manual : M unit := modify (log (Ev_action A_manual)).

Definition assist : M unit :=
  modify (log (Ev_action A_assist)) ;;
  d <- gets (fun w => del (sensed w)) ;;
  dr <- gets (fun w => del_r (refs w)) ;;
  let er := fsub d dr in
  TM.setPosition er.

Definition automatic (i : Inputs) : M unit :=
  modify (log (Ev_action A_automatic)) ;;
  old <- gets t0 ;;
  let t0_ := match old with
             | Some t => t
             | None => to_i32 (in_millis_init i)
             end in
  let t := to_i32 (in_millis i) in
  let dt := fdiv (float_of_int (to_i32 (t - t0_))) (flt 1000 0) in
  modify (set_t0 (Some t)) ;;
  s <- gets sensed ;;
  r <- gets refs ;;
  let u := in_control i (phi s) (del s) (dphi s) (ddel s) (phi_r r) (del_r r) dt in
  TM.setTorque u.

Definition fallen : M unit := modify (log (Ev_action A_fallen)).

Definition emergency_stop : M unit :=
  modify (log (Ev_action A_emergency_stop)).

Definition report (st : Z) : M unit :=
  s <- gets sensed ;; modify (log (Ev_report st s)).

(** ** The supervisor *)

(** [user_req & bit] as a condition. *)
Definition requested (bit : Z) (w : World) : bool := bit_set bit (user_req w).

(** [user_req &= ~bits]. *)
Definition clear_requests (bits : Z) : M unit :=
  modify (fun w => set_user_req (to_u8 (Z.land (user_req w) (u32_not bits))) w).

Definition lean_over (w : World) : bool := fgt (fabs (phi (sensed w))) FTHRESH.
Definition lean_upright (w : World) : bool :=
  flt_than (fabs (phi (sensed w))) UTHRESH.
Definition faster_than (x : double) (w : World) : bool :=
  fgt (to_double (v (sensed w))) x.
Definition slower_than (x : double) (w : World) : bool :=
  flt_than (to_double (v (sensed w))) x.

Definition case_IDLE : M unit :=
  (* Transitions *)
  If lean_over
     (assign_state FALLEN ;;
      Ind.setPassiveRGB RGB_FALLEN_P ;;
      Ind.setBlinkRGB RGB_FALLEN_B ;;
      Ind.setPulse 500 1500) ;;
  If (faster_than (dbl 1 0))
     (assign_state ASSIST ;;
      TM.setMode OP_PROFILE_POSITION ;;
      TM.wait_enableOperation ;;
      Ind.setPassiveRGB RGB_ASSIST_P ;;
      Ind.setBlinkRGB RGB_ASSIST_B) ;;
  If (requested R_CALIB)
     (assign_state CALIB ;;
      Ind.setPassiveRGB RGB_CALIB_P ;;
      Ind.setBlinkRGB RGB_CALIB_B ;;
      Ind.setPulse 250 250) ;;
  If (requested R_MANUAL)
     (assign_state MANUAL ;;
      Ind.setPassiveRGB RGB_MANUAL_P ;;
      Ind.setBlinkRGB RGB_MANUAL_B ;;
      TM.setMode OP_PROFILE_POSITION ;;
      TM.wait_enableOperation) ;;
  (* Action *)
  idle.

Definition case_CALIB (i : Inputs) : M unit :=
  (* Transitions *)
  If (fun _ => true)
     (clear_requests R_CALIB ;;
      assign_state IDLE ;;
      Ind.disablePulse ;;
      Ind.setPassiveRGB RGB_IDLE_P ;;
      Ind.setBlinkRGB RGB_IDLE_B) ;;
  (* Action *)
  calibrate i.

Definition case_MANUAL : M unit :=
  (* Transitions *)
  If (requested R_RESUME)
     (clear_requests (Z.lor R_RESUME R_MANUAL) ;;
      assign_state IDLE ;;
      Ind.setPassiveRGB RGB_IDLE_P ;;
      Ind.setBlinkRGB RGB_IDLE_B) ;;
  (* Action *)
  manual.

Definition case_ASSIST : M unit :=
  (* Transitions *)
  If lean_over
     (assign_state FALLEN ;;
      Ind.setPassiveRGB RGB_FALLEN_P ;;
      Ind.setBlinkRGB RGB_FALLEN_B ;;
      Ind.setPulse 500 1500) ;;
  If (faster_than HIGH_V_THRESH)
     (assign_state AUTO ;;
      TM.setMode OP_PROFILE_TORQUE ;;
      TM.wait_enableOperation ;;
      Ind.setPassiveRGB RGB_AUTO_P ;;
      Ind.setBlinkRGB RGB_AUTO_B) ;;
  If (slower_than (dbl 1 (-1)))
     (assign_state IDLE ;;
      Ind.setPassiveRGB RGB_IDLE_P ;;
      Ind.setBlinkRGB RGB_IDLE_B) ;;
  If (requested R_STOP)
     (assign_state E_STOP ;;
      DM.setSpeed (float_of_int 0) ;;
      Ind.setPassiveRGB RGB_E_STOP_P ;;
      Ind.setBlinkRGB RGB_E_STOP_B) ;;
  (* Action *)
  assist.

Definition case_AUTO (i : Inputs) : M unit :=
  (* Transitions *)
  If lean_over
     (assign_state FALLEN ;;
      Ind.setPassiveRGB RGB_FALLEN_P ;;
      Ind.setBlinkRGB RGB_FALLEN_B ;;
      Ind.setPulse 500 1500) ;;
  If (slower_than LOW_V_THRESH)
     (assign_state ASSIST ;;
      TM.setMode OP_PROFILE_POSITION ;;
      TM.wait_enableOperation ;;
      Ind.setPassiveRGB RGB_ASSIST_P ;;
      Ind.setBlinkRGB RGB_ASSIST_B) ;;
  If (requested R_STOP)
     (assign_state E_STOP ;;
      DM.setSpeed (float_of_int 0) ;;
      Ind.setPassiveRGB RGB_E_STOP_P ;;
      Ind.setBlinkRGB RGB_E_STOP_B) ;;
  (* Action *)
  automatic i.

Definition case_FALLEN : M unit :=
  (* Transitions *)
  If lean_upright
     (assign_state IDLE ;;
      Ind.setPassiveRGB RGB_IDLE_P ;;
      Ind.setBlinkRGB RGB_IDLE_B ;;
      Ind.disablePulse) ;;
  (* Action *)
  fallen.

Definition case_E_STOP : M unit :=
  (* Transitions *)
  If lean_over
     (assign_state FALLEN ;;
      Ind.setPassiveRGB RGB_FALLEN_P ;;
      Ind.setBlinkRGB RGB_FALLEN_B ;;
      Ind.setPulse 500 1500) ;;
  If (requested R_RESUME)
     (clear_requests (Z.lor R_RESUME R_STOP) ;;
      assign_state IDLE ;;
      Ind.setPassiveRGB RGB_IDLE_P ;;
      Ind.setBlinkRGB RGB_IDLE_B) ;;
  (* Action *)
  emergency_stop.

(** Invalid state, fatal error. *)
Definition case_default : M unit := Ind.setPassiveRGB (0, 0, 0).

(** [switch (state)]: "Act based on machine state, transition if necessary". *)
Definition switch_state (i : Inputs) : M unit :=
  st <- gets state ;;
  if st =? IDLE then case_IDLE
  else if st =? CALIB then case_CALIB i
  else if st =? MANUAL then case_MANUAL
  else if st =? ASSIST then case_ASSIST
  else if st =? AUTO then case_AUTO i
  else if st =? FALLEN then case_FALLEN
  else if st =? E_STOP then case_E_STOP
  else case_default.

(** ** Command polling (serial transport, RADIOCOMM is not defined) *)

Definition chr (a : ascii) : Z := Z.of_N (N_of_ascii a).

Definition poll_commands (i : Inputs) : M unit :=
  match in_telemetry i with
  | NoData => ret tt
  | Data c parsed next =>
      if c =? chr "s" then
        modify (fun w =>
          set_refs (mkRefs (phi_r (refs w)) (del_r (refs w)) parsed) w) ;;
        x <- gets (fun w => v_r (refs w)) ;;
        DM.setSpeed x
      else if c =? chr "d" then
        modify (fun w =>
          set_refs (mkRefs (phi_r (refs w)) parsed (v_r (refs w))) w)
      else if c =? chr "c" then
        modify (fun w => set_user_req (to_u8 (Z.lor (user_req w) next)) w)
      else ret tt
  end.

(** ** One iteration of loop() *)

Definition read_sensors (i : Inputs) : M unit :=
  TM.update i ;;
  modify (fun w =>
    set_sensed
      (mkSensed (in_phi i) (tm_position (torque_motor w)) (in_gyroX i)
                (tm_velocity (torque_motor w)) (in_speed i)
                (tm_torque (torque_motor w))) w).

Definition loop (i : Inputs) : M unit :=
  read_sensors i ;;
  (* indicator.update() only advances the blink pattern *)
  switch_state i ;;
  st <- gets state ;;
  report st ;;
  poll_commands i.

(** The world left by a tick, when the tick returns. *)
Definition tick (i : Inputs) (w : World) : option World :=
  match loop i w with
  | Some (_, w') => Some w'
  | None => None
  end.

(** ** Power-on state and sample inputs *)

Definition tm_start (m : OperationMode) : TorqueMotor :=
  mkTM m false fzero fzero fzero fzero fzero [].

(** The globals as their initialisers and [setup()] leave them.  What
    [start()] leaves in the two actuators is not fixed by main.cpp: [tm] and
    [dm] are arbitrary. *)
Definition booted (tm : TorqueMotor) (dm : DriveMotor) : World :=
  mkWorld IDLE 0 (mkSensed fzero fzero fzero fzero fzero fzero)
          (mkRefs fzero fzero fzero) None tm dm
          (mkInd RGB_IDLE_P RGB_IDLE_B None) [].

(** Power-on with a disabled balance actuator in mode [m] and the drive
    commanded to zero. *)
Definition power_on (m : OperationMode) : World :=
  booted (tm_start m) (mkDM fzero).

(** A world in state [st] with request flags [u], otherwise as at power-on. *)
Definition world_in (st u : Z) : World :=
  set_user_req u (set_state st (power_on OP_PROFILE_POSITION)).

(** Inputs with lean angle [ph], speed [sp] and an actuator that
    acknowledges at its second poll. *)
Definition inputs_of (ph sp : float) (tel : Telemetry) : Inputs :=
  mkInputs ph fzero fzero fzero fzero [false; true] sp true true 0 0
           (fun _ _ _ _ _ _ _ => fzero) tel.

(** ** Reachable worlds *)

Inductive reachable : World -> Prop :=
  | reach_booted : forall tm dm, reachable (booted tm dm)
  | reach_tick : forall w i w',
      reachable w -> tick i w = Some w' -> reachable w'.

(** The state actions recorded in a trace. *)
Fixpoint actions_of (tr : list Event) : list Action :=
  match tr with
  | [] => []
  | Ev_action a :: tr' => a :: actions_of tr'
  | _ :: tr' => actions_of tr'
  end.

(** The action that belongs to a state. *)
Definition action_for (st : Z) : option Action :=
  if st =? IDLE then Some A_idle
  else if st =? CALIB then Some A_calibrate
  else if st =? MANUAL then Some A_manual
  else if st =? ASSIST then Some A_assist
  else if st =? AUTO then Some A_automatic
  else if st =? FALLEN then Some A_fallen
  else if st =? E_STOP then Some A_emergency_stop
  else None.

Definition defined_state (st : Z) : Prop := 0 <= st <= 6.

(** The world after [n] refused polls and one accepted poll. *)
Definition after_wait (n : nat) (rest : list bool) (w : World) : World :=
  mkWorld (state w) (user_req w) (sensed w) (refs w) (t0 w)
          (TM.answered true rest (torque_motor w)) (drive_motor w)
          (indicator w)
          (trace w ++ repeat (Ev_enableOperation false) n
                   ++ [Ev_enableOperation true]).

(** The request byte the command channel adds during a tick (0 if none). *)
Definition incoming_requests (i : Inputs) : Z :=
  match in_telemetry i with
  | Data c _ next => if c =? chr "c" then next else 0
  | NoData => 0
  end.

(** Several ticks in a row, one input record per tick. *)
Fixpoint run (inputs : list Inputs) (w : World) : option World :=
  match inputs with
  | [] => Some w
  | i :: rest =>
      match tick i w with
      | Some w' => run rest w'
      | None => None
      end
  end.

(** The operator sets the speed reference to 3.0. *)
Definition speed_command : Telemetry := Data (chr "s") (flt 3 0) 0.
(** The operator raises request bits [bits]. *)
Definition request_command (bits : Z) : Telemetry := Data (chr "c") fzero bits.

(** The actuator mode each state needs. *)
Definition mode_matches_state (w : World) : Prop :=
  (state w = ASSIST \/ state w = MANUAL ->
   tm_mode (torque_motor w) = OP_PROFILE_POSITION)
  /\ (state w = AUTO -> tm_mode (torque_motor w) = OP_PROFILE_TORQUE).

(** Disabled actuator outputs: the balance actuator is not enabled and the
    drive command is zero. *)
Definition outputs_disabled (w : World) : Prop :=
  tm_enabled (torque_motor w) = false
  /\ SFeqb (dm_speed_cmd (drive_motor w)) fzero = true.

(** A world whose state variable holds 7, with the balance actuator enabled
    in torque mode, the drive commanded to 3.0 and the fallen pulse armed. *)
Definition faulted_world : World :=
  mkWorld 7 0 (mkSensed fzero fzero fzero fzero fzero fzero)
          (mkRefs fzero fzero (flt 3 0)) None
          (mkTM OP_PROFILE_TORQUE true fzero fzero fzero fzero fzero [])
          (mkDM (flt 3 0))
          (mkInd RGB_FALLEN_P RGB_FALLEN_B (Some (500, 1500))) [].

(** What a tick in an undefined state adds to the trace: the report, and the
    speed command when a speed frame arrives. *)
Definition fault_tick_events (i : Inputs) (st : Z) : list Event :=
  Ev_report st
    (mkSensed (in_phi i) (in_position i) (in_gyroX i) (in_velocity i)
              (in_speed i) (in_torque i))
  :: match in_telemetry i with
     | Data c parsed _ => if c =? chr "s" then [Ev_setSpeed parsed] else []
     | NoData => []
     end.

(** The position setpoints recorded in a trace. *)
Fixpoint positions_of (tr : list Event) : list float :=
  match tr with
  | [] => []
  | Ev_setPosition x :: tr' => x :: positions_of tr'
  | _ :: tr' => positions_of tr'
  end.

(** The request that holds each waiting state is pending. *)
Definition requests_held (w : World) : Prop :=
  (state w = CALIB -> bit_set R_CALIB (user_req w) = true)
  /\ (state w = MANUAL -> bit_set R_MANUAL (user_req w) = true)
  /\ (state w = E_STOP -> bit_set R_STOP (user_req w) = true).

(** The request register after the command poll, from its value [u] before
    the poll: only a request frame changes it, by or-ing its byte in. *)
Definition polled_requests (i : Inputs) (u : Z) : Z :=
  match in_telemetry i with
  | Data c _ next => if c =? chr "c" then to_u8 (Z.lor u next) else u
  | NoData => u
  end.

(** The state a tick ends in, as one decision: within each case of the
    switch the guards are listed from the last one in the source to the
    first, since a later assignment overwrites an earlier one. *)
Definition next_state (st : Z) (ph sp : float) (u : Z) : Z :=
  let over := fgt (fabs ph) FTHRESH in
  if st =? IDLE then
    if bit_set R_MANUAL u then MANUAL
    else if bit_set R_CALIB u then CALIB
    else if fgt (to_double sp) (dbl 1 0) then ASSIST
    else if over then FALLEN
    else IDLE
  else if st =? CALIB then IDLE
  else if st =? MANUAL then
    if bit_set R_RESUME u then IDLE else MANUAL
  else if st =? ASSIST then
    if bit_set R_STOP u then E_STOP
    else if flt_than (to_double sp) (dbl 1 (-1)) then IDLE
    else if fgt (to_double sp) HIGH_V_THRESH then AUTO
    else if over then FALLEN
    else ASSIST
  else if st =? AUTO then
    if bit_set R_STOP u then E_STOP
    else if flt_than (to_double sp) LOW_V_THRESH then ASSIST
    else if over then FALLEN
    else AUTO
  else if st =? FALLEN then
    if flt_than (fabs ph) UTHRESH then IDLE else FALLEN
  else if st =? E_STOP then
    if bit_set R_RESUME u then IDLE
    else if over then FALLEN
    else E_STOP
  else st.

(** The states one tick can lead to from state [st]. *)
Definition successor (st st' : Z) : Prop :=
  (st = IDLE /\ (st' = IDLE \/ st' = FALLEN \/ st' = ASSIST \/ st' = CALIB
                 \/ st' = MANUAL))
  \/ (st = CALIB /\ st' = IDLE)
  \/ (st = MANUAL /\ (st' = MANUAL \/ st' = IDLE))
  \/ (st = ASSIST /\ (st' = ASSIST \/ st' = FALLEN \/ st' = AUTO \/ st' = IDLE
                      \/ st' = E_STOP))
  \/ (st = AUTO /\ (st' = AUTO \/ st' = FALLEN \/ st' = ASSIST
                    \/ st' = E_STOP))
  \/ (st = FALLEN /\ (st' = FALLEN \/ st' = IDLE))
  \/ (st = E_STOP /\ (st' = E_STOP \/ st' = FALLEN \/ st' = IDLE)).

(** The drive speed commands recorded in a trace. *)
Fixpoint speeds_of (tr : list Event) : list float :=
  match tr with
  | [] => []
  | Ev_setSpeed x :: tr' => x :: speeds_of tr'
  | _ :: tr' => speeds_of tr'
  end.

(** The telemetry reports recorded in a trace. *)
Fixpoint reports_of (tr : list Event) : list (Z * Sensed) :=
  match tr with
  | [] => []
  | Ev_report st s :: tr' => (st, s) :: reports_of tr'
  | _ :: tr' => reports_of tr'
  end.

(** The drive command of the switch: zero, on a stop request in Assisted or
    Autonomous. *)
Definition stop_command (st u : Z) : list float :=
  if st =? ASSIST then (if bit_set R_STOP u then [float_of_int 0] else [])
  else if st =? AUTO then (if bit_set R_STOP u then [float_of_int 0] else [])
  else [].

(** The drive command of the poll: the value of a speed frame. *)
Definition frame_speed (i : Inputs) : list float :=
  match in_telemetry i with
  | Data c parsed _ => if c =? chr "s" then [parsed] else []
  | NoData => []
  end.

(** This tick's readings as a snapshot. *)
Definition snapshot (i : Inputs) : Sensed :=
  mkSensed (in_phi i) (in_position i) (in_gyroX i) (in_velocity i)
           (in_speed i) (in_torque i).

(** The torque commands and the beep patterns recorded in a trace. *)
Fixpoint torques_of (tr : list Event) : list float :=
  match tr with
  | [] => []
  | Ev_setTorque u :: tr' => u :: torques_of tr'
  | _ :: tr' => torques_of tr'
  end.

Fixpoint beeps_of (tr : list Event) : list Z :=
  match tr with
  | [] => []
  | Ev_beepstring b :: tr' => b :: beeps_of tr'
  | _ :: tr' => beeps_of tr'
  end.

(** The elapsed time automatic() passes to the controller: seconds since
    the value [old] of its static [t0], which on the first call is
    initialised just before. *)
Definition elapsed (i : Inputs) (old : option Z) : float :=
  let t0_ := match old with
             | Some t => t
             | None => to_i32 (in_millis_init i)
             end in
  fdiv (float_of_int (to_i32 (to_i32 (in_millis i) - t0_))) (flt 1000 0).

(** The references after the command poll. *)
Definition polled_refs (i : Inputs) (r : Refs) : Refs :=
  match in_telemetry i with
  | Data c parsed _ =>
      if c =? chr "s" then mkRefs (phi_r r) (del_r r) parsed
      else if c =? chr "d" then mkRefs (phi_r r) parsed (v_r r)
      else r
  | NoData => r
  end.

(** The same inputs with another frame on the command channel. *)
Definition with_telemetry (tel : Telemetry) (i : Inputs) : Inputs :=
  mkInputs (in_phi i) (in_gyroX i) (in_position i) (in_velocity i)
           (in_torque i) (in_acks i) (in_speed i) (in_gyros_ok i)
           (in_accel_ok i) (in_millis_init i) (in_millis i) (in_control i)
           tel.

(** The passive and blink colours that go with a state. *)
Definition state_colours (st : Z) : option (RGB * RGB) :=
  if st =? IDLE then Some (RGB_IDLE_P, RGB_IDLE_B)
  else if st =? CALIB then Some (RGB_CALIB_P, RGB_CALIB_B)
  else if st =? MANUAL then Some (RGB_MANUAL_P, RGB_MANUAL_B)
  else if st =? ASSIST then Some (RGB_ASSIST_P, RGB_ASSIST_B)
  else if st =? AUTO then Some (RGB_AUTO_P, RGB_AUTO_B)
  else if st =? FALLEN then Some (RGB_FALLEN_P, RGB_FALLEN_B)
  else if st =? E_STOP then Some (RGB_E_STOP_P, RGB_E_STOP_B)
  else None.

(** The indicator shows the colours of the state, and the balance actuator
    has acknowledged in the three states that were entered through a wait. *)
Definition shown_and_enabled (w : World) : Prop :=
  state_colours (state w)
  = Some (ind_passive (indicator w), ind_blink (indicator w))
  /\ (state w = ASSIST \/ state w = MANUAL \/ state w = AUTO ->
      tm_enabled (torque_motor w) = true).

(** How often a tick waits for the actuator: once for each mode-switching
    guard that fires in the case it starts in. *)
Definition mode_switches (st : Z) (sp : float) (u : Z) : nat :=
  if st =? IDLE then
    ((if fgt (to_double sp) (dbl 1 0) then 1 else 0)
     + (if bit_set R_MANUAL u then 1 else 0))%nat
  else if st =? ASSIST then
    (if fgt (to_double sp) HIGH_V_THRESH then 1 else 0)%nat
  else if st =? AUTO then
    (if flt_than (to_double sp) LOW_V_THRESH then 1 else 0)%nat
  else 0%nat.

(** The number of positive answers among the actuator's answers. *)
Definition acknowledgments (acks : list bool) : nat :=
  length (filter (fun ok => ok) acks).

(** The register after an exit that clears the bits of [mask]: each of its
    eight bits is the old bit unless the exit clears it, or-ed with the bit
    the command channel adds during the tick. *)
Definition cleared_register (i : Inputs) (mask : Z) (w w' : World) : Prop :=
  forall k, 0 <= k < 8 ->
    Z.testbit (user_req w') k
    = (Z.testbit (user_req w) k && negb (Z.testbit mask k))
      || Z.testbit (incoming_requests i) k.

(** * Properties *)

(** ** The wait for the actuator *)

Lemma wait_loop_returns acks : forall w u w',
  TM.wait_loop acks w = Some (u, w') ->
  exists n rest, acks = repeat false n ++ true :: rest /\ w' = after_wait n rest w.
Proof.
  induction acks as [|ok acks IH]; intros w u w' H; simpl in H.
  - discriminate.
  - destruct ok.
    + inversion H; subst. exists 0%nat, acks. split; [reflexivity|].
      unfold after_wait, TM.polled, log. simpl. reflexivity.
    + apply IH in H. destruct H as (n & rest & Hacks & ->).
      exists (S n), rest. split; [simpl; now rewrite Hacks|].
      unfold after_wait, TM.polled, log. simpl.
      now rewrite <- app_assoc.
Qed.

Lemma wait_loop_total n rest : forall w,
  TM.wait_loop (repeat false n ++ true :: rest) w
  = Some (tt, after_wait n rest w).
Proof.
  induction n as [|n IH]; intro w; simpl.
  - reflexivity.
  - rewrite IH. unfold after_wait, TM.polled, log. simpl.
    now rewrite <- app_assoc.
Qed.

Lemma wait_loop_stalls n : forall w,
  TM.wait_loop (repeat false n) w = None.
Proof. induction n as [|n IH]; intro w; simpl; auto. Qed.

Lemma actions_of_app tr1 tr2 :
  actions_of (tr1 ++ tr2) = actions_of tr1 ++ actions_of tr2.
Proof.
  induction tr1 as [|e tr1 IH]; simpl; [reflexivity|].
  destruct e; simpl; now rewrite IH.
Qed.

Lemma actions_of_polls n :
  actions_of (repeat (Ev_enableOperation false) n) = [].
Proof. induction n; simpl; auto. Qed.

(** ** Request bits *)

Lemma bit_set_testbit k u :
  0 <= k -> bit_set (2 ^ k) u = Z.testbit u k.
Proof.
  intro Hk. unfold bit_set.
  destruct (Z.testbit u k) eqn:Hb.
  - apply negb_true_iff, Z.eqb_neq. intro H0.
    assert (Ht : Z.testbit (Z.land u (2 ^ k)) k = true)
      by (rewrite Z.land_spec, Hb, Z.pow2_bits_true; auto).
    rewrite H0, Z.bits_0 in Ht. discriminate.
  - apply negb_false_iff, Z.eqb_eq, Z.bits_inj'. intros n Hn.
    rewrite Z.land_spec, Z.bits_0.
    destruct (Z.eq_dec n k) as [->|Hne].
    + now rewrite Hb.
    + rewrite Z.pow2_bits_false by lia. apply andb_false_r.
Qed.

Lemma testbit_u8_or u x k :
  0 <= k < 8 ->
  Z.testbit (to_u8 (Z.lor u x)) k = Z.testbit u k || Z.testbit x k.
Proof.
  intro Hk. unfold to_u8. change 256 with (2 ^ 8).
  rewrite Z.mod_pow2_bits_low by lia. apply Z.lor_spec.
Qed.

Lemma testbit_u8_clear u m k :
  0 <= k < 8 ->
  Z.testbit (to_u8 (Z.land u (u32_not m))) k
  = Z.testbit u k && negb (Z.testbit m k).
Proof.
  intro Hk. unfold to_u8, u32_not. change 256 with (2 ^ 8).
  rewrite Z.mod_pow2_bits_low by lia.
  rewrite Z.land_spec, Z.lxor_spec.
  change (2 ^ 32 - 1) with (Z.ones 32).
  rewrite Z.ones_spec_low by lia.
  now rewrite xorb_true_r.
Qed.

Lemma R_CALIB_bit u : bit_set R_CALIB u = Z.testbit u 0.
Proof. apply (bit_set_testbit 0); lia. Qed.
Lemma R_MANUAL_bit u : bit_set R_MANUAL u = Z.testbit u 1.
Proof. apply (bit_set_testbit 1); lia. Qed.
Lemma R_STOP_bit u : bit_set R_STOP u = Z.testbit u 2.
Proof. apply (bit_set_testbit 2); lia. Qed.
Lemma R_RESUME_bit u : bit_set R_RESUME u = Z.testbit u 3.
Proof. apply (bit_set_testbit 3); lia. Qed.

(** ** Running the code symbolically *)

Arguments fgt : simpl never.
Arguments flt_than : simpl never.
Arguments fabs : simpl never.
Arguments to_double : simpl never.
Arguments bit_set : simpl never.
Arguments to_u8 : simpl never.
Arguments to_i32 : simpl never.
Arguments u32_not : simpl never.
Arguments fsub : simpl never.
Arguments fdiv : simpl never.
Arguments float_of_int : simpl never.
Arguments flt : simpl never.
Arguments dbl : simpl never.
Arguments FTHRESH : simpl never.
Arguments UTHRESH : simpl never.
Arguments HIGH_V_THRESH : simpl never.
Arguments LOW_V_THRESH : simpl never.
Arguments TM.wait_loop : simpl never.
Arguments chr : simpl never.

Ltac unfold_code :=
  unfold tick, loop, read_sensors, switch_state, poll_commands, report,
    case_IDLE, case_CALIB, case_MANUAL, case_ASSIST, case_AUTO, case_FALLEN,
    case_E_STOP, case_default,
    idle, calibrate, manual, assist, automatic, fallen, emergency_stop,
    clear_requests, assign_state, If, when,
    lean_over, lean_upright, faster_than, slower_than, requested,
    Ind.setPassiveRGB, Ind.setBlinkRGB, Ind.setPulse, Ind.disablePulse,
    Ind.beepstring, TM.update, TM.setMode, TM.wait_enableOperation,
    TM.setPosition, TM.setTorque, DM.setSpeed,
    bind, gets, modify, ret in *.

(** Split on the outcome of a wait found in hypothesis [H]. *)
Ltac split_wait H :=
  match type of H with
  | context [TM.wait_loop ?a ?x] =>
      let E := fresh "Ew" in
      let w1 := fresh "w" in
      let n := fresh "n" in
      let rest := fresh "rest" in
      let Hacks := fresh "Hacks" in
      destruct (TM.wait_loop a x) as [[[] w1]|] eqn:E;
      [ apply wait_loop_returns in E; destruct E as (n & rest & Hacks & E);
        subst w1
      | try discriminate H ]
  end.

(** Split on a condition that hypothesis [H] is stuck on. *)
Ltac split_if H :=
  match type of H with
  | context [if ?b then _ else _] =>
      lazymatch b with
      | context [if _ then _ else _] => fail
      | _ => destruct b eqn:?
      end
  | context [match in_telemetry ?i with _ => _ end] =>
      destruct (in_telemetry i) eqn:?
  end.

(** Run the tick recorded in [H] through every path. *)
Ltac run_tick H :=
  unfold_code; cbn in H;
  repeat (first [split_if H | split_wait H]; cbn in H);
  try discriminate H.

(** Use a known starting state. *)
Ltac run_tick_from Hs H :=
  unfold_code; cbn in H; rewrite Hs in H; cbn in H;
  repeat (first [split_if H | split_wait H]; cbn in H);
  try discriminate H.

Ltac tidy_trace :=
  cbn; rewrite ?actions_of_app, ?actions_of_polls; cbn;
  rewrite ?app_nil_r, <- ?app_assoc; cbn.

(** The seven defined states, one by one. *)
Lemma defined_state_cases st :
  defined_state st ->
  st = IDLE \/ st = CALIB \/ st = MANUAL \/ st = ASSIST \/ st = AUTO
  \/ st = FALLEN \/ st = E_STOP.
Proof. unfold defined_state, IDLE, CALIB, MANUAL, ASSIST, AUTO, FALLEN, E_STOP. lia. Qed.

Lemma action_for_defined st :
  defined_state st <-> exists a, action_for st = Some a.
Proof.
  split.
  - intro H. apply defined_state_cases in H.
    repeat (destruct H as [->|H]); try subst st; cbn; eauto.
  - intros [a H]. unfold action_for in H.
    repeat match type of H with
           | context [?x =? ?y] => destruct (Z.eqb_spec x y)
           end; try discriminate;
    subst; unfold defined_state, IDLE, CALIB, MANUAL, ASSIST, AUTO, FALLEN,
      E_STOP; lia.
Qed.

(** ** Every tick returns once the actuator acknowledges

    A tick waits for the actuator at most twice (Idle with speed above 1.0
    and RequestManual set). *)

Ltac split_if_goal :=
  match goal with
  | |- context [if ?b then _ else _] =>
      lazymatch b with
      | context [if _ then _ else _] => fail
      | _ => destruct b
      end
  | |- context [match in_telemetry ?i with _ => _ end] =>
      destruct (in_telemetry i)
  end.

Lemma tick_returns i w n m rest :
  in_acks i = repeat false n ++ true :: repeat false m ++ true :: rest ->
  exists w', tick i w = Some w'.
Proof.
  intro Hacks. unfold_code. cbn. rewrite ?Hacks.
  repeat (first [rewrite wait_loop_total | split_if_goal]; cbn; rewrite ?Hacks);
    eexists; reflexivity.
Qed.

Lemma tick_stalls_without_acknowledgment n :
  tick (mkInputs fzero fzero fzero fzero fzero (repeat false n) (flt 3 (-1))
                 true true 0 0 (fun _ _ _ _ _ _ _ => fzero) NoData)
       (world_in IDLE 0) = None.
Proof.
  unfold_code. cbn.
  change (fgt (fabs fzero) FTHRESH) with false. cbn.
  change (fgt (to_double (flt 3 (-1))) (dbl 1 0)) with true. cbn.
  now rewrite wait_loop_stalls.
Qed.

(** ** C1: which action a tick runs *)

(** C1, as stated, fails: the tick that takes Idle to Assisted (speed 1.5,
    upright, no requests) ends in state ASSIST but the one action it ran is
    idle(), not assist(). *)
Lemma idle_to_assist_runs_idle :
  exists w',
    tick (inputs_of fzero (flt 3 (-1)) NoData) (world_in IDLE 0) = Some w'
    /\ state w' = ASSIST
    /\ action_for (state w') = Some A_assist
    /\ actions_of (trace w') = [A_idle]
    /\ actions_of (trace w') <> [A_assist].
Proof.
  eexists. split; [vm_compute; reflexivity|].
  cbn. repeat split; try reflexivity. discriminate.
Qed.

(** C1 (amended): on every tick that starts in one of the seven defined
    states and returns, exactly one state action is invoked, and it is the
    action of the state the tick started in (the case of the switch), also
    when the guards assigned a new state. *)
Theorem tick_runs_action_of_entry_state i w w' a :
  action_for (state w) = Some a ->
  tick i w = Some w' ->
  actions_of (trace w') = actions_of (trace w) ++ [a].
Proof.
  intros Ha H.
  assert (Hd : defined_state (state w)) by (apply action_for_defined; eauto).
  apply defined_state_cases in Hd.
  repeat (destruct Hd as [Hs|Hd]); try rename Hd into Hs;
    rewrite Hs in Ha; cbn in Ha; inversion Ha; subst a; clear Ha;
    run_tick_from Hs H; inversion H; subst; tidy_trace; reflexivity.
Qed.

Lemma tick_runs_action_of_entry_state_witness :
  exists w',
    tick (inputs_of fzero (flt 3 (-1)) NoData) (world_in IDLE 0) = Some w'
    /\ state w' = ASSIST
    /\ actions_of (trace w') = actions_of (trace (world_in IDLE 0)) ++ [A_idle].
Proof.
  eexists. split; [vm_compute; reflexivity|]. split; [reflexivity|].
  apply (tick_runs_action_of_entry_state
           (inputs_of fzero (flt 3 (-1)) NoData) (world_in IDLE 0)).
  - reflexivity.
  - vm_compute. reflexivity.
Defined.

Ltac eqb_props :=
  repeat match goal with
         | H : (_ =? _) = true |- _ => apply Z.eqb_eq in H
         | H : (_ =? _) = false |- _ => apply Z.eqb_neq in H
         end.

Ltac state_lia :=
  unfold IDLE, CALIB, MANUAL, ASSIST, AUTO, FALLEN, E_STOP in *; lia.

(** ** C2: drive command in Fallen and EmergencyStop *)

(** C2: the code does not keep the drive command at zero.  From power-on the
    operator sets speed 3.0, the vehicle rides into Assisted, then leans 1.0
    rad: the state is Fallen on that tick and on the next one, and the drive
    command is still 3.0.  And a tick that enters EmergencyStop (zeroing the
    command) while a speed frame arrives ends in EmergencyStop with the drive
    command 3.0. *)
Lemma fallen_and_estop_keep_driving :
  (exists w1 w2,
     run [inputs_of fzero fzero speed_command;
          inputs_of fzero (flt 3 (-1)) NoData;
          inputs_of (flt 1 0) (flt 3 (-1)) NoData]
         (power_on OP_PROFILE_POSITION) = Some w1
     /\ state w1 = FALLEN
     /\ dm_speed_cmd (drive_motor w1) = flt 3 0
     /\ tick (inputs_of (flt 1 0) (flt 3 (-1)) NoData) w1 = Some w2
     /\ state w2 = FALLEN
     /\ dm_speed_cmd (drive_motor w2) = flt 3 0)
  /\ (exists w1 w2,
        run [inputs_of fzero (flt 3 (-1)) (request_command R_STOP)]
            (power_on OP_PROFILE_POSITION) = Some w1
        /\ state w1 = ASSIST
        /\ tick (inputs_of fzero (flt 3 (-1)) speed_command) w1 = Some w2
        /\ state w2 = E_STOP
        /\ In (Ev_setSpeed (float_of_int 0)) (trace w2)
        /\ dm_speed_cmd (drive_motor w2) = flt 3 0)
  /\ SFeqb (flt 3 0) fzero = false.
Proof.
  split; [|split].
  - eexists. eexists. split; [vm_compute; reflexivity|].
    split; [reflexivity|]. split; [reflexivity|].
    split; [vm_compute; reflexivity|]. split; reflexivity.
  - eexists. eexists. split; [vm_compute; reflexivity|].
    split; [reflexivity|]. split; [vm_compute; reflexivity|].
    split; [reflexivity|]. split; [|reflexivity].
    vm_compute. tauto.
  - reflexivity.
Qed.

(** ** C3: actuator mode invariant *)

Lemma mode_matches_state_tick i w w' :
  mode_matches_state w -> tick i w = Some w' -> mode_matches_state w'.
Proof.
  intros [Hpos Htrq] H.
  run_tick H; inversion H; subst; clear H; eqb_props;
    (split; cbn; intro Hx;
     try reflexivity; try (exfalso; state_lia); auto).
Qed.

(** C3: in every reachable world (the end of every tick that returns),
    state Assisted or Manual implies the balance actuator is in position
    tracking mode, and state Autonomous implies torque tracking mode. *)
Theorem reachable_mode_matches_state w :
  reachable w -> mode_matches_state w.
Proof.
  induction 1 as [tm dm|w i w' Hr IH Ht].
  - split; cbn; intro Hx; exfalso; state_lia.
  - eapply mode_matches_state_tick; eauto.
Qed.

Lemma reachable_mode_matches_state_witness :
  exists w',
    tick (inputs_of fzero (flt 3 (-1)) NoData) (power_on OP_PROFILE_TORQUE)
    = Some w'
    /\ state w' = ASSIST
    /\ mode_matches_state w'.
Proof.
  eexists. split; [vm_compute; reflexivity|]. split; [reflexivity|].
  apply reachable_mode_matches_state.
  apply (reach_tick (power_on OP_PROFILE_TORQUE)
                    (inputs_of fzero (flt 3 (-1)) NoData)).
  - apply reach_booted.
  - vm_compute. reflexivity.
Defined.

(** ** C4: guard order in Idle *)

(** C4, as stated, fails: from Idle with speed 1.5 and lean 1.0 rad, and
    RequestCalibrate pending, both guards hold but the later request guard
    overwrites the state again: the tick ends in Calibrating. *)
Lemma idle_fast_leaning_with_request_calibrates :
  exists w',
    tick (inputs_of (flt 1 0) (flt 3 (-1)) NoData) (world_in IDLE R_CALIB)
    = Some w'
    /\ fgt (to_double (flt 3 (-1))) (dbl 1 0) = true
    /\ fgt (fabs (flt 1 0)) FTHRESH = true
    /\ state w' = CALIB
    /\ state w' <> ASSIST.
Proof.
  eexists. split; [vm_compute; reflexivity|].
  repeat split; try reflexivity. cbn. discriminate.
Qed.

(** C4 (amended): from Idle, on a tick where both speed > 1.0 and
    |lean| > pi/4 hold, the resulting state is never Fallen, and it is
    Assisted when neither RequestCalibrate nor RequestManual is set; the tick
    returns as soon as the actuator acknowledges. *)
Theorem idle_speed_guard_overrides_fall_guard i w :
  state w = IDLE ->
  fgt (to_double (in_speed i)) (dbl 1 0) = true ->
  fgt (fabs (in_phi i)) FTHRESH = true ->
  (forall w', tick i w = Some w' ->
     state w' <> FALLEN
     /\ (bit_set R_CALIB (user_req w) = false ->
         bit_set R_MANUAL (user_req w) = false -> state w' = ASSIST))
  /\ (forall n rest,
        in_acks i = repeat false n ++ true :: rest ->
        bit_set R_CALIB (user_req w) = false ->
        bit_set R_MANUAL (user_req w) = false ->
        exists w', tick i w = Some w' /\ state w' = ASSIST).
Proof.
  intros Hs Hv Hphi. split.
  - intros w' H.
    run_tick_from Hs H; inversion H; subst; clear H; cbn;
      (split; [state_lia | intros; congruence]).
  - intros n rest Hacks Hc Hm.
    unfold_code. cbn. rewrite Hs. cbn. rewrite Hphi. cbn. rewrite Hv. cbn.
    rewrite Hacks, wait_loop_total. cbn. rewrite Hc. cbn. rewrite Hm. cbn.
    destruct (in_telemetry i) as [|c parsed next]; cbn.
    + eexists. split; reflexivity.
    + destruct (c =? chr "s"); [|destruct (c =? chr "d"); [|destruct (c =? chr "c")]];
        cbn; eexists; split; reflexivity.
Qed.

Lemma idle_speed_guard_overrides_fall_guard_witness :
  exists w',
    tick (inputs_of (flt 1 0) (flt 3 (-1)) NoData) (world_in IDLE 0) = Some w'
    /\ state w' = ASSIST.
Proof.
  apply (proj2 (idle_speed_guard_overrides_fall_guard
                  (inputs_of (flt 1 0) (flt 3 (-1)) NoData) (world_in IDLE 0)
                  eq_refl eq_refl eq_refl) 1%nat []);
    reflexivity.
Defined.

(** ** C5: a state value outside the seven states *)

(** C5, as stated, fails: a tick with state 7 leaves the balance actuator
    enabled and the drive command at 3.0, and the armed pulse and blink colour
    stay; only the passive colour is set to black. *)
Lemma invalid_state_leaves_outputs_on :
  exists w',
    tick (inputs_of fzero fzero NoData) faulted_world = Some w'
    /\ ~ defined_state (state faulted_world)
    /\ tm_enabled (torque_motor w') = true
    /\ dm_speed_cmd (drive_motor w') = flt 3 0
    /\ ~ outputs_disabled w'
    /\ ind_pulse (indicator w') = Some (500, 1500)
    /\ ind_blink (indicator w') = RGB_FALLEN_B.
Proof.
  eexists. split; [vm_compute; reflexivity|].
  split; [unfold defined_state; cbn; lia|].
  split; [reflexivity|]. split; [reflexivity|].
  split; [intros [He _]; discriminate He|].
  split; reflexivity.
Qed.

Lemma undefined_state_dispatch st :
  ~ defined_state st ->
  (st =? IDLE) = false /\ (st =? CALIB) = false /\ (st =? MANUAL) = false
  /\ (st =? ASSIST) = false /\ (st =? AUTO) = false /\ (st =? FALLEN) = false
  /\ (st =? E_STOP) = false.
Proof.
  unfold defined_state. intro H.
  repeat split; apply Z.eqb_neq; state_lia.
Qed.

Lemma invalid_state_tick i w :
  ~ defined_state (state w) ->
  exists w',
    tick i w = Some w'
    /\ state w' = state w
    /\ ind_passive (indicator w') = (0, 0, 0)
    /\ ind_blink (indicator w') = ind_blink (indicator w)
    /\ ind_pulse (indicator w') = ind_pulse (indicator w)
    /\ tm_mode (torque_motor w') = tm_mode (torque_motor w)
    /\ tm_enabled (torque_motor w') = tm_enabled (torque_motor w)
    /\ tm_position_cmd (torque_motor w') = tm_position_cmd (torque_motor w)
    /\ tm_torque_cmd (torque_motor w') = tm_torque_cmd (torque_motor w)
    /\ trace w' = trace w ++ fault_tick_events i (state w)
    /\ (in_telemetry i = NoData ->
        drive_motor w' = drive_motor w /\ user_req w' = user_req w).
Proof.
  intro Hu. apply undefined_state_dispatch in Hu.
  destruct Hu as (H0 & H1 & H2 & H3 & H4 & H5 & H6).
  unfold fault_tick_events. unfold_code. cbn.
  rewrite H0, H1, H2, H3, H4, H5, H6. cbn.
  destruct (in_telemetry i) as [|c parsed next]; cbn.
  - eexists. split; [reflexivity|]. cbn. repeat split; reflexivity.
  - destruct (c =? chr "s"); [|destruct (c =? chr "d"); [|destruct (c =? chr "c")]];
      cbn; (eexists; split; [reflexivity|]); cbn;
      rewrite <- ?app_assoc; repeat split; try reflexivity; discriminate.
Qed.

(** C5 (amended): when the state variable holds a value outside the seven
    defined states, every tick returns with the state unchanged, now and on
    any later tick, and runs no state action; the switch only sets the
    indicator's passive colour to (0,0,0), leaving blink colour and pulse, and
    leaves the balance actuator's mode, enablement and setpoints as they
    were; the tick still reports and polls the command channel, so the drive
    command changes only when a speed frame arrives. *)
Theorem invalid_state_is_terminal i w :
  ~ defined_state (state w) ->
  (exists w',
     tick i w = Some w'
     /\ state w' = state w
     /\ actions_of (trace w') = actions_of (trace w)
     /\ ind_passive (indicator w') = (0, 0, 0)
     /\ ind_blink (indicator w') = ind_blink (indicator w)
     /\ ind_pulse (indicator w') = ind_pulse (indicator w)
     /\ tm_mode (torque_motor w') = tm_mode (torque_motor w)
     /\ tm_enabled (torque_motor w') = tm_enabled (torque_motor w)
     /\ tm_position_cmd (torque_motor w') = tm_position_cmd (torque_motor w)
     /\ tm_torque_cmd (torque_motor w') = tm_torque_cmd (torque_motor w)
     /\ trace w' = trace w ++ fault_tick_events i (state w)
     /\ (in_telemetry i = NoData -> drive_motor w' = drive_motor w))
  /\ (forall later, exists w'',
        run later w = Some w'' /\ state w'' = state w).
Proof.
  intro Hu. split.
  - destruct (invalid_state_tick i w Hu)
      as (w' & Ht & Hs & Hp & Hb & Hpu & Hm & He & Hpc & Htc & Htr & Hno).
    exists w'. split; [assumption|]. split; [assumption|]. split.
    { rewrite Htr, actions_of_app. unfold fault_tick_events. cbn.
      destruct (in_telemetry i) as [|c parsed next];
        [|destruct (c =? chr "s")]; cbn; now rewrite app_nil_r. }
    repeat (split; [assumption|]).
    intro Hn. apply (Hno Hn).
  - intro later. revert w Hu.
    induction later as [|j later IH]; intros w Hu; cbn.
    + eauto.
    + destruct (invalid_state_tick j w Hu) as (w' & Ht & Hs & _).
      rewrite Ht. destruct (IH w') as (w'' & Hr & Hs'').
      * now rewrite Hs.
      * exists w''. split; [assumption|congruence].
Qed.

Lemma invalid_state_is_terminal_witness :
  exists w'',
    run [inputs_of fzero fzero NoData; inputs_of fzero (flt 3 (-1)) NoData]
        faulted_world = Some w''
    /\ state w'' = state faulted_world.
Proof.
  apply (proj2 (invalid_state_is_terminal
                  (inputs_of fzero fzero NoData) faulted_world
                  ltac:(unfold defined_state; cbn; lia))).
Defined.

(** ** C6 and C7: leaving EmergencyStop and Calibrating *)

Lemma upright_is_not_fallen s : fgt (fabs (S754_zero s)) FTHRESH = false.
Proof. destruct s; vm_compute; reflexivity. Qed.

(** The bits a transition clears are, at the end of the tick, exactly the
    bits the command channel raised during that tick. *)
Lemma cleared_then_polled u m x k :
  0 <= k < 8 -> Z.testbit m k = true ->
  Z.testbit (to_u8 (Z.lor (to_u8 (Z.land u (u32_not m))) x)) k = Z.testbit x k.
Proof.
  intros Hk Hm.
  now rewrite testbit_u8_or, testbit_u8_clear, Hm, andb_false_r by lia.
Qed.

Lemma cleared_bit u m k :
  0 <= k < 8 -> Z.testbit m k = true ->
  Z.testbit (to_u8 (Z.land u (u32_not m))) k = false.
Proof.
  intros Hk Hm. now rewrite testbit_u8_clear, Hm, andb_false_r by lia.
Qed.

(** Case analysis on the frame the command channel delivers. *)
Ltac split_frame i :=
  let c := fresh "c" in
  let parsed := fresh "parsed" in
  let next := fresh "next" in
  let Hc := fresh "Hc" in
  destruct (in_telemetry i) as [|c parsed next];
  [ | destruct (Z.eqb_spec c (chr "c")) as [->|Hc];
      [ change (chr "c" =? chr "s") with false;
        change (chr "c" =? chr "d") with false;
        rewrite ?Z.eqb_refl
      | apply Z.eqb_neq in Hc; rewrite ?Hc;
        destruct (c =? chr "s"); [|destruct (c =? chr "d")] ] ].

Ltac bits :=
  rewrite ?R_CALIB_bit, ?R_MANUAL_bit, ?R_STOP_bit, ?R_RESUME_bit in *.

(** Leaving EmergencyStop on a resume request, whatever the lean angle. *)
Lemma estop_resume_any_lean i w :
  state w = E_STOP ->
  bit_set R_RESUME (user_req w) = true ->
  exists w',
    tick i w = Some w'
    /\ state w' = IDLE
    /\ bit_set R_RESUME (user_req w') = bit_set R_RESUME (incoming_requests i)
    /\ bit_set R_STOP (user_req w') = bit_set R_STOP (incoming_requests i).
Proof.
  intros Hs Hr.
  unfold incoming_requests. unfold_code. cbn. rewrite Hs. cbn.
  destruct (fgt (fabs (in_phi i)) FTHRESH); cbn; rewrite Hr; cbn;
    (split_frame i; cbn; (eexists; split; [reflexivity|]); cbn; bits;
     rewrite ?cleared_then_polled, ?cleared_bit by (try reflexivity; lia);
     repeat split; reflexivity).
Qed.

(** C6: from EmergencyStop, on a tick with RequestResume set and lean angle
    0, the tick returns in state Idle and has cleared RequestResume and
    RequestStop: at the end of the tick each of the two bits is set only if
    the command channel raised it anew during this tick. *)
Theorem estop_resume_upright_returns_to_idle i w s :
  state w = E_STOP ->
  bit_set R_RESUME (user_req w) = true ->
  in_phi i = S754_zero s ->
  exists w',
    tick i w = Some w'
    /\ state w' = IDLE
    /\ bit_set R_RESUME (user_req w') = bit_set R_RESUME (incoming_requests i)
    /\ bit_set R_STOP (user_req w') = bit_set R_STOP (incoming_requests i)
    /\ (in_telemetry i = NoData ->
        bit_set R_RESUME (user_req w') = false
        /\ bit_set R_STOP (user_req w') = false).
Proof.
  intros Hs Hr _.
  destruct (estop_resume_any_lean i w Hs Hr) as (w' & Ht & Hi & Hb1 & Hb2).
  exists w'. repeat (split; [assumption|]).
  intro Hn. rewrite Hb1, Hb2. unfold incoming_requests. rewrite Hn.
  split; reflexivity.
Qed.

Lemma estop_resume_upright_returns_to_idle_witness :
  exists w',
    tick (inputs_of fzero fzero NoData)
         (world_in E_STOP (Z.lor R_STOP R_RESUME)) = Some w'
    /\ state w' = IDLE
    /\ bit_set R_RESUME (user_req w') = false
    /\ bit_set R_STOP (user_req w') = false.
Proof.
  destruct (estop_resume_upright_returns_to_idle
              (inputs_of fzero fzero NoData)
              (world_in E_STOP (Z.lor R_STOP R_RESUME)) false
              eq_refl eq_refl eq_refl)
    as (w' & Ht & Hs & _ & _ & Hn).
  exists w'. split; [exact Ht|]. split; [exact Hs|]. exact (Hn eq_refl).
Defined.

(** C7: from Calibrating, whatever the measurements and the request
    register, the tick returns in state Idle with the pulse disabled and the
    idle colours set, and has cleared RequestCalibrate: at the end of the tick
    the bit is set only if the command channel raised it anew during this
    tick. *)
Theorem calibrating_always_returns_to_idle i w :
  state w = CALIB ->
  exists w',
    tick i w = Some w'
    /\ state w' = IDLE
    /\ bit_set R_CALIB (user_req w') = bit_set R_CALIB (incoming_requests i)
    /\ (in_telemetry i = NoData -> bit_set R_CALIB (user_req w') = false)
    /\ ind_pulse (indicator w') = None
    /\ ind_passive (indicator w') = RGB_IDLE_P
    /\ ind_blink (indicator w') = RGB_IDLE_B.
Proof.
  intro Hs.
  unfold incoming_requests. unfold_code. cbn. rewrite Hs. cbn.
  destruct (in_gyros_ok i), (in_accel_ok i); cbn;
    (split_frame i; cbn; (eexists; split; [reflexivity|]); cbn; bits;
     rewrite ?cleared_then_polled, ?cleared_bit by (try reflexivity; lia);
     repeat split; try reflexivity; discriminate).
Qed.

Lemma calibrating_always_returns_to_idle_witness :
  exists w',
    tick (inputs_of (flt 1 0) (flt 3 0) NoData) (world_in CALIB R_CALIB)
    = Some w'
    /\ state w' = IDLE
    /\ bit_set R_CALIB (user_req w') = false
    /\ ind_pulse (indicator w') = None.
Proof.
  destruct (calibrating_always_returns_to_idle
              (inputs_of (flt 1 0) (flt 3 0) NoData)
              (world_in CALIB R_CALIB) eq_refl)
    as (w' & Ht & Hs & _ & Hn & Hp & _).
  exists w'. split; [exact Ht|]. split; [exact Hs|].
  split; [exact (Hn eq_refl)|exact Hp].
Defined.

(** ** C8: the position-hold law *)

Lemma positions_of_app tr1 tr2 :
  positions_of (tr1 ++ tr2) = positions_of tr1 ++ positions_of tr2.
Proof.
  induction tr1 as [|e tr1 IH]; simpl; [reflexivity|].
  destruct e; simpl; now rewrite IH.
Qed.

Lemma positions_of_polls n :
  positions_of (repeat (Ev_enableOperation false) n) = [].
Proof. induction n; simpl; auto. Qed.

Ltac tidy_positions :=
  cbn; rewrite ?positions_of_app, ?positions_of_polls; cbn;
  rewrite ?app_nil_r, <- ?app_assoc; cbn.

(** C8: on every tick in which the Assisted action runs (a tick that starts
    in Assisted and returns), the balance actuator receives exactly one
    position command, and its argument and the resulting setpoint are the
    float difference steer_angle - steer_angle_ref of this tick's steering
    reading and the reference held at the start of the tick; the tick
    returns as soon as the actuator acknowledges. *)
Theorem assist_commands_steering_error i w :
  state w = ASSIST ->
  (forall w', tick i w = Some w' ->
     del (sensed w') = in_position i
     /\ positions_of (trace w')
        = positions_of (trace w) ++ [fsub (in_position i) (del_r (refs w))]
     /\ tm_position_cmd (torque_motor w')
        = fsub (in_position i) (del_r (refs w)))
  /\ (forall n rest,
        in_acks i = repeat false n ++ true :: rest ->
        exists w', tick i w = Some w').
Proof.
  intro Hs. split.
  - intros w' H.
    run_tick_from Hs H; inversion H; subst; clear H; tidy_positions;
      repeat split; reflexivity.
  - intros n rest Hacks.
    unfold_code. cbn. rewrite Hs. cbn.
    destruct (fgt (fabs (in_phi i)) FTHRESH); cbn;
      (destruct (fgt (to_double (in_speed i)) HIGH_V_THRESH); cbn;
       rewrite ?Hacks, ?wait_loop_total; cbn;
       destruct (flt_than (to_double (in_speed i)) (dbl 1 (-1))); cbn;
       destruct (bit_set R_STOP (user_req w)); cbn;
       split_frame i; cbn; eexists; reflexivity).
Qed.

Lemma assist_commands_steering_error_witness :
  exists w',
    tick (inputs_of fzero (flt 3 (-1)) NoData) (world_in ASSIST 0) = Some w'
    /\ tm_position_cmd (torque_motor w')
       = fsub (in_position (inputs_of fzero (flt 3 (-1)) NoData))
              (del_r (refs (world_in ASSIST 0))).
Proof.
  destruct (assist_commands_steering_error
              (inputs_of fzero (flt 3 (-1)) NoData) (world_in ASSIST 0)
              eq_refl) as [Hcmd Hret].
  destruct (Hret 1%nat [] eq_refl) as [w' Ht].
  exists w'. split; [exact Ht|]. exact (proj2 (proj2 (Hcmd w' Ht))).
Defined.

(** ** C9: no fall detection in Manual and Calibrating *)

(** C9: a tick that starts in Manual or Calibrating always returns and
    never ends in Fallen, whatever the lean angle: from Manual the state is
    Idle when RequestResume is set and Manual otherwise, from Calibrating it
    is Idle. *)
Theorem manual_and_calibrating_never_fall i w :
  state w = MANUAL \/ state w = CALIB ->
  exists w',
    tick i w = Some w'
    /\ state w' <> FALLEN
    /\ (state w = MANUAL ->
        state w' = if bit_set R_RESUME (user_req w) then IDLE else MANUAL)
    /\ (state w = CALIB -> state w' = IDLE).
Proof.
  intros [Hs|Hs]; unfold_code; cbn; rewrite Hs; cbn.
  - destruct (bit_set R_RESUME (user_req w)); cbn;
      (split_frame i; cbn; (eexists; split; [reflexivity|]); cbn;
       (split; [state_lia|]);
       (split; intro; [first [reflexivity|assumption]|state_lia])).
  - destruct (in_gyros_ok i), (in_accel_ok i); cbn;
      (split_frame i; cbn; (eexists; split; [reflexivity|]); cbn;
       (split; [state_lia|]);
       (split; intro; [state_lia|reflexivity])).
Qed.

Lemma manual_and_calibrating_never_fall_witness :
  exists w',
    tick (inputs_of (flt 1 0) fzero NoData) (world_in MANUAL R_MANUAL) = Some w'
    /\ fgt (fabs (flt 1 0)) FTHRESH = true
    /\ state w' = MANUAL.
Proof.
  destruct (manual_and_calibrating_never_fall
              (inputs_of (flt 1 0) fzero NoData) (world_in MANUAL R_MANUAL)
              (or_introl eq_refl)) as (w' & Ht & _ & Hm & _).
  exists w'. split; [exact Ht|]. split; [reflexivity|]. exact (Hm eq_refl).
Defined.

(** ** C10: request bits are cleared on the way out *)

(** Bring [polled_requests] and [incoming_requests] to the branch the
    current path took. *)
Ltac resolve_frame :=
  unfold polled_requests, incoming_requests;
  repeat match goal with
         | H : in_telemetry _ = _ |- _ => rewrite H; clear H
         end;
  repeat match goal with
         | H : (?c =? chr _) = true |- _ => apply Z.eqb_eq in H; subst c
         | H : (?c =? chr "c") = false |- _ => rewrite H; clear H
         end;
  try change (chr "s" =? chr "c") with false;
  try change (chr "d" =? chr "c") with false;
  rewrite ?Z.eqb_refl; cbn.

Lemma polled_requests_bit i u k :
  0 <= k < 8 ->
  Z.testbit (polled_requests i u) k
  = Z.testbit u k || Z.testbit (incoming_requests i) k.
Proof.
  intro Hk. unfold polled_requests, incoming_requests.
  destruct (in_telemetry i) as [|c parsed next].
  - now rewrite Z.bits_0, orb_false_r.
  - destruct (c =? chr "c").
    + now apply testbit_u8_or.
    + now rewrite Z.bits_0, orb_false_r.
Qed.

(** The register a tick leaves: the value after the switch, which is the old
    value unless one of the three exits to Idle cleared its bits, then the
    poll. *)
Lemma tick_requests i w w' :
  tick i w = Some w' ->
  exists u1,
    user_req w' = polled_requests i u1
    /\ (u1 = user_req w
        \/ (state w = CALIB /\ state w' = IDLE
            /\ u1 = to_u8 (Z.land (user_req w) (u32_not R_CALIB)))
        \/ (state w = MANUAL /\ state w' = IDLE
            /\ u1 = to_u8 (Z.land (user_req w)
                                  (u32_not (Z.lor R_RESUME R_MANUAL))))
        \/ (state w = E_STOP /\ state w' = IDLE
            /\ u1 = to_u8 (Z.land (user_req w)
                                  (u32_not (Z.lor R_RESUME R_STOP))))).
Proof.
  intro H.
  run_tick H; inversion H; subst; clear H; cbn;
    eexists; (split; [resolve_frame; reflexivity|]);
    eqb_props;
    first [ left; reflexivity
          | right; left; repeat split; (assumption || reflexivity)
          | right; right; left; repeat split; (assumption || reflexivity)
          | right; right; right; repeat split; (assumption || reflexivity) ].
Qed.

Lemma requests_held_tick i w w' :
  requests_held w -> tick i w = Some w' -> requests_held w'.
Proof.
  intros (Hc & Hm & He) H.
  run_tick H; inversion H; subst; clear H; unfold requests_held; cbn;
    eqb_props;
    (repeat split; intro Hx; try (exfalso; state_lia);
     try specialize (Hc Hx); try specialize (Hm Hx); try specialize (He Hx);
     bits; rewrite ?testbit_u8_or by lia;
     repeat match goal with
            | Hb : Z.testbit _ _ = true |- _ => rewrite Hb
            end;
     reflexivity).
Qed.

Lemma reachable_requests_held w : reachable w -> requests_held w.
Proof.
  induction 1 as [tm dm|w i w' Hr IH Ht].
  - repeat split; cbn; intro Hx; exfalso; state_lia.
  - eapply requests_held_tick; eauto.
Qed.

(** A pending bit that a tick leaves unset was cleared by the switch. *)
Lemma cleared_by_switch i u u1 k :
  0 <= k < 8 ->
  Z.testbit u k = true ->
  Z.testbit (polled_requests i u1) k = false ->
  Z.testbit u1 k = false /\ u1 <> u.
Proof.
  intros Hk Hset Hclr.
  rewrite polled_requests_bit in Hclr by assumption.
  apply orb_false_iff in Hclr. destruct Hclr as [H1 _].
  split; [assumption|]. intros ->. congruence.
Qed.

(** Entry and frame: the holding bit is set in its state, a tick that ends
    in one of the three waiting states leaves the register as it was up to
    the incoming bits, and a bit that disappears was cleared by its own
    exit. *)
Lemma request_bits_kept_until_exit w :
  reachable w ->
  requests_held w
  /\ forall i w', tick i w = Some w' ->
       ((state w' = CALIB \/ state w' = MANUAL \/ state w' = E_STOP) ->
          (forall k, 0 <= k < 8 ->
             Z.testbit (user_req w') k
             = Z.testbit (user_req w) k || Z.testbit (incoming_requests i) k)
          /\ (in_telemetry i = NoData -> user_req w' = user_req w))
       /\ (bit_set R_CALIB (user_req w) = true ->
           bit_set R_CALIB (user_req w') = false ->
           state w = CALIB /\ state w' = IDLE)
       /\ (bit_set R_MANUAL (user_req w) = true ->
           bit_set R_MANUAL (user_req w') = false ->
           state w = MANUAL /\ state w' = IDLE)
       /\ (bit_set R_STOP (user_req w) = true ->
           bit_set R_STOP (user_req w') = false ->
           state w = E_STOP /\ state w' = IDLE).
Proof.
  intro Hr. split; [now apply reachable_requests_held|].
  intros i w' Ht.
  destruct (tick_requests i w w' Ht) as (u1 & Hu & Hcases).
  split; [|split; [|split]].
  - intro Hin.
    assert (Hsame : u1 = user_req w).
    { destruct Hcases as [H|[(_ & Hi & _)|[(_ & Hi & _)|(_ & Hi & _)]]];
        [assumption|exfalso; state_lia..]. }
    subst u1. split.
    + intros k Hk. rewrite Hu. now apply polled_requests_bit.
    + intro Hn. rewrite Hu. unfold polled_requests. now rewrite Hn.
  - bits. intros Hset Hclr. rewrite Hu in Hclr.
    destruct (cleared_by_switch i (user_req w) u1 0 ltac:(lia) Hset Hclr)
      as [Hb Hne].
    destruct Hcases as [H|[(Hs & Hi & _)|[(_ & _ & H)|(_ & _ & H)]]].
    + contradiction.
    + now split.
    + rewrite H, testbit_u8_clear, Hset in Hb by lia. discriminate Hb.
    + rewrite H, testbit_u8_clear, Hset in Hb by lia. discriminate Hb.
  - bits. intros Hset Hclr. rewrite Hu in Hclr.
    destruct (cleared_by_switch i (user_req w) u1 1 ltac:(lia) Hset Hclr)
      as [Hb Hne].
    destruct Hcases as [H|[(_ & _ & H)|[(Hs & Hi & _)|(_ & _ & H)]]].
    + contradiction.
    + rewrite H, testbit_u8_clear, Hset in Hb by lia. discriminate Hb.
    + now split.
    + rewrite H, testbit_u8_clear, Hset in Hb by lia. discriminate Hb.
  - bits. intros Hset Hclr. rewrite Hu in Hclr.
    destruct (cleared_by_switch i (user_req w) u1 2 ltac:(lia) Hset Hclr)
      as [Hb Hne].
    destruct Hcases as [H|[(_ & _ & H)|[(_ & _ & H)|(Hs & Hi & _)]]].
    + contradiction.
    + rewrite H, testbit_u8_clear, Hset in Hb by lia. discriminate Hb.
    + rewrite H, testbit_u8_clear, Hset in Hb by lia. discriminate Hb.
    + now split.
Qed.

(** The end of an exit tick: the world, its state, its register bit by
    bit and the cleared request bits. *)
Ltac exit_register :=
  (eexists; split; [reflexivity|]); cbn; (split; [reflexivity|]);
  (split;
   [ let k := fresh "k" in
     let Hk := fresh "Hk" in
     intros k Hk;
     rewrite ?testbit_u8_or, ?testbit_u8_clear, ?Z.bits_0, ?orb_false_r
       by lia;
     reflexivity
   | bits;
     rewrite ?cleared_then_polled, ?cleared_bit by (try reflexivity; lia);
     first [reflexivity | split; reflexivity] ]).

(** Exit: the three transitions back to Idle clear their bits.  Each of the
    eight bits of the register is, after the tick, the old bit unless the
    exit clears it, or-ed with what the command channel adds. *)
Lemma exits_clear_their_bits i w :
  (state w = CALIB ->
   exists w',
     tick i w = Some w' /\ state w' = IDLE
     /\ cleared_register i R_CALIB w w'
     /\ bit_set R_CALIB (user_req w') = bit_set R_CALIB (incoming_requests i))
  /\ (state w = MANUAL -> bit_set R_RESUME (user_req w) = true ->
      exists w',
        tick i w = Some w' /\ state w' = IDLE
        /\ cleared_register i (Z.lor R_RESUME R_MANUAL) w w'
        /\ bit_set R_RESUME (user_req w')
           = bit_set R_RESUME (incoming_requests i)
        /\ bit_set R_MANUAL (user_req w')
           = bit_set R_MANUAL (incoming_requests i))
  /\ (state w = E_STOP -> bit_set R_RESUME (user_req w) = true ->
      exists w',
        tick i w = Some w' /\ state w' = IDLE
        /\ cleared_register i (Z.lor R_RESUME R_STOP) w w'
        /\ bit_set R_RESUME (user_req w')
           = bit_set R_RESUME (incoming_requests i)
        /\ bit_set R_STOP (user_req w')
           = bit_set R_STOP (incoming_requests i)).
Proof.
  unfold cleared_register, incoming_requests.
  split; [|split].
  - intro Hs. unfold_code. cbn. rewrite Hs. cbn.
    destruct (in_gyros_ok i), (in_accel_ok i); cbn;
      (split_frame i; cbn; exit_register).
  - intros Hs Hr. unfold_code. cbn. rewrite Hs. cbn. rewrite Hr. cbn.
    split_frame i; cbn; exit_register.
  - intros Hs Hr. unfold_code. cbn. rewrite Hs. cbn.
    destruct (fgt (fabs (in_phi i)) FTHRESH); cbn; rewrite Hr; cbn;
      (split_frame i; cbn; exit_register).
Qed.

(** C10: request bits are cleared on exit, never on entry.  In every
    reachable world RequestCalibrate is set while the state is Calibrating,
    RequestManual while it is Manual and RequestStop while it is
    EmergencyStop.  The three transitions back to Idle clear their bits: the
    tick from Calibrating clears RequestCalibrate, the tick from Manual with
    RequestResume set clears RequestResume and RequestManual, the tick from
    EmergencyStop with RequestResume set clears RequestResume and
    RequestStop; each of these ticks returns in Idle, and afterwards every
    bit of the register is the old bit unless the exit clears it, or-ed with
    what the command channel adds during the tick.  A tick that ends in one
    of the three waiting states leaves the register as it was, up to the bits
    the command channel adds.  And a tick after which RequestCalibrate
    (RequestManual, RequestStop) is no longer set started in Calibrating
    (Manual, EmergencyStop) and ended in Idle. *)
Theorem request_bits_cleared_on_exit_only w :
  reachable w ->
  requests_held w
  /\ (forall i,
        (state w = CALIB ->
         exists w',
           tick i w = Some w' /\ state w' = IDLE
           /\ cleared_register i R_CALIB w w'
           /\ bit_set R_CALIB (user_req w')
              = bit_set R_CALIB (incoming_requests i))
        /\ (state w = MANUAL -> bit_set R_RESUME (user_req w) = true ->
            exists w',
              tick i w = Some w' /\ state w' = IDLE
              /\ cleared_register i (Z.lor R_RESUME R_MANUAL) w w'
              /\ bit_set R_RESUME (user_req w')
                 = bit_set R_RESUME (incoming_requests i)
              /\ bit_set R_MANUAL (user_req w')
                 = bit_set R_MANUAL (incoming_requests i))
        /\ (state w = E_STOP -> bit_set R_RESUME (user_req w) = true ->
            exists w',
              tick i w = Some w' /\ state w' = IDLE
              /\ cleared_register i (Z.lor R_RESUME R_STOP) w w'
              /\ bit_set R_RESUME (user_req w')
                 = bit_set R_RESUME (incoming_requests i)
              /\ bit_set R_STOP (user_req w')
                 = bit_set R_STOP (incoming_requests i)))
  /\ forall i w', tick i w = Some w' ->
       ((state w' = CALIB \/ state w' = MANUAL \/ state w' = E_STOP) ->
          (forall k, 0 <= k < 8 ->
             Z.testbit (user_req w') k
             = Z.testbit (user_req w) k || Z.testbit (incoming_requests i) k)
          /\ (in_telemetry i = NoData -> user_req w' = user_req w))
       /\ (bit_set R_CALIB (user_req w) = true ->
           bit_set R_CALIB (user_req w') = false ->
           state w = CALIB /\ state w' = IDLE)
       /\ (bit_set R_MANUAL (user_req w) = true ->
           bit_set R_MANUAL (user_req w') = false ->
           state w = MANUAL /\ state w' = IDLE)
       /\ (bit_set R_STOP (user_req w) = true ->
           bit_set R_STOP (user_req w') = false ->
           state w = E_STOP /\ state w' = IDLE).
Proof.
  intro Hr.
  destruct (request_bits_kept_until_exit w Hr) as [Hheld Hframe].
  split; [exact Hheld|]. split; [|exact Hframe].
  intro i. apply exits_clear_their_bits.
Qed.

Lemma request_bits_cleared_on_exit_only_witness :
  exists w1 w2,
    tick (inputs_of fzero fzero (request_command R_MANUAL))
         (power_on OP_PROFILE_TORQUE) = Some w1
    /\ tick (inputs_of fzero fzero (request_command R_RESUME)) w1 = Some w2
    /\ state w2 = MANUAL
    /\ user_req w2 = Z.lor R_RESUME R_MANUAL
    /\ requests_held w2
    /\ exists w3,
         tick (inputs_of fzero fzero NoData) w2 = Some w3
         /\ state w3 = IDLE
         /\ bit_set R_RESUME (user_req w3) = false
         /\ bit_set R_MANUAL (user_req w3) = false.
Proof.
  eexists. eexists. split; [vm_compute; reflexivity|].
  split; [vm_compute; reflexivity|].
  split; [reflexivity|]. split; [reflexivity|].
  match goal with
  | |- requests_held ?x /\ _ =>
      assert (Hr : reachable x)
        by (eapply (reach_tick _ (inputs_of fzero fzero
                                    (request_command R_RESUME)));
            [ apply (reach_tick (power_on OP_PROFILE_TORQUE)
                       (inputs_of fzero fzero (request_command R_MANUAL)));
              [apply reach_booted | vm_compute; reflexivity]
            | vm_compute; reflexivity ]);
      destruct (request_bits_cleared_on_exit_only x Hr)
        as (Hheld & Hexit & _)
  end.
  split; [exact Hheld|].
  destruct (proj1 (proj2 (Hexit (inputs_of fzero fzero NoData)))
              eq_refl eq_refl) as (w3 & Ht & Hs & _ & Hb1 & Hb2).
  exists w3. split; [exact Ht|]. split; [exact Hs|].
  split; [exact Hb1|exact Hb2].
Defined.

(** * Further properties of the loop *)

(** ** The transition function *)

(** Rewrite the goal with every guard outcome recorded on the path. *)
Ltac use_guards :=
  repeat match goal with
         | H : ?b = true |- context [if ?b then _ else _] => rewrite H
         | H : ?b = false |- context [if ?b then _ else _] => rewrite H
         end.

Lemma tick_next_state i w w' :
  tick i w = Some w' ->
  state w' = next_state (state w) (in_phi i) (in_speed i) (user_req w).
Proof.
  intro H.
  run_tick H; inversion H; subst; clear H; cbn;
    unfold next_state; use_guards;
    first [reflexivity | eqb_props; congruence].
Qed.

Lemma next_state_successor st ph sp u :
  defined_state st -> successor st (next_state st ph sp u).
Proof.
  intro Hd. apply defined_state_cases in Hd. unfold successor.
  repeat (destruct Hd as [->|Hd]); try subst st; unfold next_state; cbn;
    repeat match goal with
           | |- context [if ?b then _ else _] => destruct b
           end; tauto.
Qed.

Lemma next_state_defined st ph sp u :
  defined_state st -> defined_state (next_state st ph sp u).
Proof.
  intro Hd. pose proof (next_state_successor st ph sp u Hd) as Hs.
  unfold successor in Hs. unfold defined_state in *. state_lia.
Qed.

Lemma reachable_defined_state w : reachable w -> defined_state (state w).
Proof.
  induction 1 as [tm dm|w i w' Hr IH Ht].
  - unfold defined_state. cbn. state_lia.
  - rewrite (tick_next_state i w w' Ht). now apply next_state_defined.
Qed.

(** X1: the state a tick ends in is a priority decision over the guards of
    the case it started in, the guard listed last in the source having the
    highest priority (its assignment overwrites the earlier ones). *)
Theorem tick_state_is_priority_decision i w w' :
  tick i w = Some w' ->
  state w' = next_state (state w) (in_phi i) (in_speed i) (user_req w).
Proof. apply tick_next_state. Qed.

Lemma tick_state_is_priority_decision_witness :
  exists w',
    tick (inputs_of (flt 1 0) (flt 1 (-2)) NoData) (world_in ASSIST R_STOP)
    = Some w'
    /\ state w' = next_state ASSIST (flt 1 0) (flt 1 (-2)) R_STOP
    /\ next_state ASSIST (flt 1 0) (flt 1 (-2)) R_STOP = E_STOP.
Proof.
  eexists. split; [vm_compute; reflexivity|]. split; [|reflexivity].
  apply (tick_state_is_priority_decision
           (inputs_of (flt 1 0) (flt 1 (-2)) NoData)
           (world_in ASSIST R_STOP)).
  vm_compute. reflexivity.
Defined.

(** X2: the transition graph.  From a defined state a tick only leads to
    the states the source assigns in that case: Idle never goes straight to
    Autonomous or EmergencyStop, Autonomous never straight to Idle, Fallen
    and Calibrating and Manual only to Idle or themselves. *)
Theorem tick_follows_transition_graph i w w' :
  defined_state (state w) ->
  tick i w = Some w' ->
  successor (state w) (state w').
Proof.
  intros Hd Ht. rewrite (tick_next_state i w w' Ht).
  now apply next_state_successor.
Qed.

Lemma tick_follows_transition_graph_witness :
  exists w',
    tick (inputs_of fzero (flt 3 0) NoData) (world_in IDLE 0) = Some w'
    /\ successor IDLE (state w').
Proof.
  eexists. split; [vm_compute; reflexivity|].
  apply (tick_follows_transition_graph
           (inputs_of fzero (flt 3 0) NoData) (world_in IDLE 0)).
  - change (0 <= 0 <= 6). lia.
  - vm_compute. reflexivity.
Defined.

(** X3: in every reachable world the state variable holds one of the seven
    defined states, so the default case of the switch never runs. *)
Theorem reachable_state_is_defined w :
  reachable w -> defined_state (state w).
Proof. apply reachable_defined_state. Qed.

Lemma reachable_state_is_defined_witness :
  exists w',
    tick (inputs_of fzero (flt 3 0) NoData) (power_on OP_PROFILE_TORQUE)
    = Some w'
    /\ defined_state (state w').
Proof.
  eexists. split; [vm_compute; reflexivity|].
  apply reachable_state_is_defined.
  apply (reach_tick (power_on OP_PROFILE_TORQUE)
                    (inputs_of fzero (flt 3 0) NoData)).
  - apply reach_booted.
  - vm_compute. reflexivity.
Defined.

(** ** The request register is a byte *)

Lemma to_u8_range x : 0 <= to_u8 x < 256.
Proof. unfold to_u8. apply Z.mod_pos_bound. lia. Qed.

(** X4: in every reachable world the request register holds a value in
    0..255: every write goes through the truncation to uint8_t. *)
Theorem reachable_user_req_is_byte w :
  reachable w -> 0 <= user_req w < 256.
Proof.
  induction 1 as [tm dm|w i w' Hr IH Ht].
  - cbn. lia.
  - destruct (tick_requests i w w' Ht) as (u1 & Hu & Hcases).
    assert (H1 : 0 <= u1 < 256).
    { destruct Hcases as [->|[(_ & _ & ->)|[(_ & _ & ->)|(_ & _ & ->)]]];
        [assumption|apply to_u8_range..]. }
    rewrite Hu. unfold polled_requests.
    destruct (in_telemetry i) as [|c parsed next]; [assumption|].
    destruct (c =? chr "c"); [apply to_u8_range|assumption].
Qed.

Lemma reachable_user_req_is_byte_witness :
  exists w',
    tick (inputs_of fzero fzero (Data (chr "c") fzero (-1)))
         (power_on OP_PROFILE_POSITION) = Some w'
    /\ 0 <= user_req w' < 256.
Proof.
  eexists. split; [vm_compute; reflexivity|].
  apply reachable_user_req_is_byte.
  apply (reach_tick (power_on OP_PROFILE_POSITION)
                    (inputs_of fzero fzero (Data (chr "c") fzero (-1)))).
  - apply reach_booted.
  - vm_compute. reflexivity.
Defined.

(** ** Drive commands and reports of a tick *)

Lemma speeds_of_app tr1 tr2 :
  speeds_of (tr1 ++ tr2) = speeds_of tr1 ++ speeds_of tr2.
Proof.
  induction tr1 as [|e tr1 IH]; simpl; [reflexivity|].
  destruct e; simpl; now rewrite IH.
Qed.

Lemma speeds_of_polls n :
  speeds_of (repeat (Ev_enableOperation false) n) = [].
Proof. induction n; simpl; auto. Qed.

Lemma reports_of_app tr1 tr2 :
  reports_of (tr1 ++ tr2) = reports_of tr1 ++ reports_of tr2.
Proof.
  induction tr1 as [|e tr1 IH]; simpl; [reflexivity|].
  destruct e; simpl; now rewrite IH.
Qed.

Lemma reports_of_polls n :
  reports_of (repeat (Ev_enableOperation false) n) = [].
Proof. induction n; simpl; auto. Qed.

(** Settle the tests on the state variable that occur in the goal. *)
Ltac decide_state :=
  eqb_props;
  repeat match goal with
         | |- context [state ?w =? ?k] =>
             destruct (Z.eqb_spec (state w) k); try (exfalso; state_lia)
         end.

(** Settle the tests on the tag of the frame that occur in the goal. *)
Ltac decide_frame :=
  repeat match goal with
         | H : in_telemetry _ = _ |- _ => rewrite H; clear H
         end;
  repeat match goal with
         | H : (?c =? chr _) = true |- _ => apply Z.eqb_eq in H; subst c
         end;
  repeat match goal with
         | |- context [chr ?a =? chr ?b] =>
             let r := eval vm_compute in (chr a =? chr b) in
             change (chr a =? chr b) with r
         end;
  use_guards; cbn.

Lemma tick_speeds i w w' :
  tick i w = Some w' ->
  speeds_of (trace w')
  = speeds_of (trace w) ++ stop_command (state w) (user_req w)
    ++ frame_speed i
  /\ dm_speed_cmd (drive_motor w')
     = last (stop_command (state w) (user_req w) ++ frame_speed i)
            (dm_speed_cmd (drive_motor w)).
Proof.
  intro H.
  run_tick H; inversion H; subst; clear H;
    unfold stop_command, frame_speed; cbn;
    rewrite ?speeds_of_app, ?speeds_of_polls; cbn;
    decide_frame; decide_state; use_guards; cbn;
    rewrite ?app_nil_r, <- ?app_assoc; cbn; split; reflexivity.
Qed.

(** X5: the drive actuator is commanded only by the stop transition (zero,
    from Assisted or Autonomous with RequestStop set) and then by a speed
    frame of the command channel; its command at the end of the tick is the
    last of these, or the old command when there is none. *)
Theorem drive_commands_of_tick i w w' :
  tick i w = Some w' ->
  speeds_of (trace w')
  = speeds_of (trace w) ++ stop_command (state w) (user_req w)
    ++ frame_speed i
  /\ dm_speed_cmd (drive_motor w')
     = last (stop_command (state w) (user_req w) ++ frame_speed i)
            (dm_speed_cmd (drive_motor w)).
Proof. apply tick_speeds. Qed.

Lemma drive_commands_of_tick_witness :
  exists w',
    tick (inputs_of fzero (flt 3 0) speed_command) (world_in AUTO R_STOP)
    = Some w'
    /\ speeds_of (trace w') = [float_of_int 0; flt 3 0]
    /\ dm_speed_cmd (drive_motor w') = flt 3 0.
Proof.
  eexists. split; [vm_compute; reflexivity|].
  apply (drive_commands_of_tick
           (inputs_of fzero (flt 3 0) speed_command) (world_in AUTO R_STOP)).
  vm_compute. reflexivity.
Defined.


(** ** Recovery from Fallen *)

(** X7: a tick that starts in Fallen always returns; it ends in Idle, with
    the pulse disabled and the idle colours, exactly when |lean| < pi/20, and
    otherwise stays in Fallen with the indicator untouched.  Speed and
    request bits play no part, and the balance actuator gets no command. *)
Theorem fallen_recovers_only_when_upright i w :
  state w = FALLEN ->
  exists w',
    tick i w = Some w'
    /\ (if flt_than (fabs (in_phi i)) UTHRESH
        then state w' = IDLE
             /\ indicator w' = mkInd RGB_IDLE_P RGB_IDLE_B None
        else state w' = FALLEN /\ indicator w' = indicator w)
    /\ torque_motor w' = TM.refreshed i (torque_motor w).
Proof.
  intro Hs. unfold_code. cbn. rewrite Hs. cbn.
  destruct (flt_than (fabs (in_phi i)) UTHRESH); cbn;
    split_frame i; cbn; (eexists; split; [reflexivity|]); cbn;
    (split; [split|reflexivity]);
    first [reflexivity | assumption | now destruct (indicator w)].
Qed.

Lemma fallen_recovers_only_when_upright_witness :
  exists w',
    tick (inputs_of (flt 1 (-1)) (flt 3 0) (request_command 15))
         (world_in FALLEN 0) = Some w'
    /\ flt_than (fabs (flt 1 (-1))) UTHRESH = false
    /\ state w' = FALLEN.
Proof.
  destruct (fallen_recovers_only_when_upright
              (inputs_of (flt 1 (-1)) (flt 3 0) (request_command 15))
              (world_in FALLEN 0) eq_refl) as (w' & Ht & Hc & _).
  exists w'. split; [exact Ht|]. split; [reflexivity|].
  exact (proj1 Hc).
Defined.

(** ** Telemetry *)

Lemma tick_reports i w w' :
  tick i w = Some w' ->
  sensed w' = snapshot i
  /\ reports_of (trace w') = reports_of (trace w) ++ [(state w', snapshot i)].
Proof.
  intro H.
  run_tick H; inversion H; subst; clear H; unfold snapshot; cbn;
    rewrite ?reports_of_app, ?reports_of_polls; cbn;
    rewrite ?app_nil_r, <- ?app_assoc; cbn; split; reflexivity.
Qed.

(** X8: every tick that returns emits exactly one report, whatever the
    state, also an undefined one; the report carries the state the tick ends
    in (the transition decided this tick) and the readings taken at the start
    of this tick, which are also what the globals hold afterwards. *)
Theorem one_report_per_tick i w w' :
  tick i w = Some w' ->
  sensed w' = snapshot i
  /\ reports_of (trace w') = reports_of (trace w) ++ [(state w', snapshot i)].
Proof. apply tick_reports. Qed.

Lemma one_report_per_tick_witness :
  exists w',
    tick (inputs_of fzero (flt 3 (-1)) NoData) (world_in IDLE 0) = Some w'
    /\ reports_of (trace w')
       = [(ASSIST, snapshot (inputs_of fzero (flt 3 (-1)) NoData))].
Proof.
  eexists. split; [vm_compute; reflexivity|].
  apply (one_report_per_tick
           (inputs_of fzero (flt 3 (-1)) NoData) (world_in IDLE 0)).
  vm_compute. reflexivity.
Defined.

(** ** What each state action commands *)

Lemma torques_of_app tr1 tr2 :
  torques_of (tr1 ++ tr2) = torques_of tr1 ++ torques_of tr2.
Proof.
  induction tr1 as [|e tr1 IH]; simpl; [reflexivity|].
  destruct e; simpl; now rewrite IH.
Qed.

Lemma torques_of_polls n :
  torques_of (repeat (Ev_enableOperation false) n) = [].
Proof. induction n; simpl; auto. Qed.

Lemma beeps_of_app tr1 tr2 :
  beeps_of (tr1 ++ tr2) = beeps_of tr1 ++ beeps_of tr2.
Proof.
  induction tr1 as [|e tr1 IH]; simpl; [reflexivity|].
  destruct e; simpl; now rewrite IH.
Qed.

Lemma beeps_of_polls n :
  beeps_of (repeat (Ev_enableOperation false) n) = [].
Proof. induction n; simpl; auto. Qed.

(** One pass over every path of a tick: the commands of the state actions,
    the static of automatic() and the references. *)
Lemma tick_effects i w w' :
  tick i w = Some w' ->
  positions_of (trace w')
  = positions_of (trace w)
    ++ (if state w =? ASSIST
        then [fsub (in_position i) (del_r (refs w))] else [])
  /\ torques_of (trace w')
     = torques_of (trace w)
       ++ (if state w =? AUTO
           then [in_control i (in_phi i) (in_position i) (in_gyroX i)
                   (in_velocity i) (phi_r (refs w)) (del_r (refs w))
                   (elapsed i (t0 w))]
           else [])
  /\ t0 w' = (if state w =? AUTO then Some (to_i32 (in_millis i)) else t0 w)
  /\ beeps_of (trace w')
     = beeps_of (trace w)
       ++ (if state w =? CALIB
           then [if in_gyros_ok i then 119 else 136;
                 if in_accel_ok i then 170 else 51]
           else [])
  /\ refs w' = polled_refs i (refs w).
Proof.
  intro H.
  run_tick H; inversion H; subst; clear H; unfold polled_refs, elapsed; cbn;
    rewrite ?positions_of_app, ?positions_of_polls,
      ?torques_of_app, ?torques_of_polls, ?beeps_of_app, ?beeps_of_polls;
    cbn; decide_frame; decide_state; cbn;
    rewrite ?app_nil_r, <- ?app_assoc; cbn;
    repeat split; try reflexivity; now destruct (refs w).
Qed.

(** X9: each control command belongs to one state.  A tick that does not
    start in Assisted issues no position command, one that does not start in
    Autonomous issues no torque command and leaves the timestamp of
    automatic() alone, and one that does not start in Calibrating beeps no
    calibration pattern. *)
Theorem commands_belong_to_their_state i w w' :
  tick i w = Some w' ->
  (state w <> ASSIST -> positions_of (trace w') = positions_of (trace w))
  /\ (state w <> AUTO ->
      torques_of (trace w') = torques_of (trace w) /\ t0 w' = t0 w)
  /\ (state w <> CALIB -> beeps_of (trace w') = beeps_of (trace w)).
Proof.
  intro Ht.
  destruct (tick_effects i w w' Ht) as (Hp & Hq & Ht0 & Hb & _).
  split; [|split]; intro Hne; apply Z.eqb_neq in Hne;
    rewrite Hne in *; rewrite ?app_nil_r in *; auto.
Qed.

Lemma commands_belong_to_their_state_witness :
  exists w',
    tick (inputs_of fzero (flt 3 0) NoData) (world_in ASSIST 0) = Some w'
    /\ state w' = AUTO
    /\ torques_of (trace w') = [].
Proof.
  eexists. split; [vm_compute; reflexivity|]. split; [reflexivity|].
  refine (proj1 (proj1 (proj2 (commands_belong_to_their_state
            (inputs_of fzero (flt 3 0) NoData) (world_in ASSIST 0) _ _)) _)).
  - vm_compute. reflexivity.
  - cbn. discriminate.
Defined.


(** X11: a tick in Calibrating runs both calibrations, the second also
    when the first failed, and beeps one pattern for each: 0b01110111 or
    0b10001000 for the gyros, then 0b10101010 or 0b00110011 for the
    accelerometer. *)
Theorem calibrate_reports_each_result i w :
  state w = CALIB ->
  exists w',
    tick i w = Some w'
    /\ beeps_of (trace w')
       = beeps_of (trace w)
         ++ [if in_gyros_ok i then 119 else 136;
             if in_accel_ok i then 170 else 51]
    /\ In (Ev_calibrateGyros (in_gyros_ok i)) (trace w')
    /\ In (Ev_calibrateAccel (in_accel_ok i)) (trace w').
Proof.
  intro Hs. unfold_code. cbn. rewrite Hs. cbn.
  destruct (in_gyros_ok i), (in_accel_ok i); cbn;
    (split_frame i; cbn; (eexists; split; [reflexivity|]); cbn;
     rewrite ?beeps_of_app; cbn; rewrite ?app_nil_r, <- ?app_assoc; cbn;
     repeat split; try reflexivity;
     rewrite ?in_app_iff; cbn; tauto).
Qed.

Lemma calibrate_reports_each_result_witness :
  exists w',
    tick (inputs_of fzero fzero NoData) (world_in CALIB R_CALIB) = Some w'
    /\ beeps_of (trace w') = [119; 170].
Proof.
  destruct (calibrate_reports_each_result
              (inputs_of fzero fzero NoData) (world_in CALIB R_CALIB)
              eq_refl) as (w' & Ht & Hb & _).
  exists w'. split; [exact Ht|exact Hb].
Defined.

(** ** The command channel *)

(** X12: a speed frame is applied in every state, Fallen, EmergencyStop and
    undefined states included: at the end of the tick the speed reference and
    the drive command are the value of the frame, and the other references
    keep their values. *)
Theorem speed_frame_sets_drive_in_every_state i w w' c x n :
  in_telemetry i = Data c x n ->
  c = chr "s" ->
  tick i w = Some w' ->
  v_r (refs w') = x
  /\ dm_speed_cmd (drive_motor w') = x
  /\ del_r (refs w') = del_r (refs w)
  /\ phi_r (refs w') = phi_r (refs w).
Proof.
  intros Hf -> Ht.
  destruct (tick_effects i w w' Ht) as (_ & _ & _ & _ & Hr).
  destruct (tick_speeds i w w' Ht) as [_ Hd].
  rewrite Hr, Hd. unfold polled_refs, frame_speed. rewrite Hf.
  rewrite Z.eqb_refl. cbn. rewrite last_last. repeat split; reflexivity.
Qed.

Lemma speed_frame_sets_drive_in_every_state_witness :
  exists w',
    tick (inputs_of (flt 1 0) fzero speed_command) (world_in FALLEN 0)
    = Some w'
    /\ state w' = FALLEN
    /\ dm_speed_cmd (drive_motor w') = flt 3 0.
Proof.
  eexists. split; [vm_compute; reflexivity|]. split; [reflexivity|].
  refine (proj1 (proj2 (speed_frame_sets_drive_in_every_state
            (inputs_of (flt 1 0) fzero speed_command) (world_in FALLEN 0)
            _ (chr "s") (flt 3 0) 0 eq_refl eq_refl _))).
  vm_compute. reflexivity.
Defined.

(** X13: a steering frame only replaces the steering reference: the other
    references keep their values and the drive gets no command from the
    poll. *)
Theorem steer_frame_sets_reference_only i w w' c x n :
  in_telemetry i = Data c x n ->
  c = chr "d" ->
  tick i w = Some w' ->
  refs w' = mkRefs (phi_r (refs w)) x (v_r (refs w))
  /\ speeds_of (trace w')
     = speeds_of (trace w) ++ stop_command (state w) (user_req w).
Proof.
  intros Hf -> Ht.
  destruct (tick_effects i w w' Ht) as (_ & _ & _ & _ & Hr).
  destruct (tick_speeds i w w' Ht) as [Hs _].
  rewrite Hr, Hs. unfold polled_refs, frame_speed. rewrite Hf.
  change (chr "d" =? chr "s") with false. rewrite Z.eqb_refl.
  now rewrite app_nil_r.
Qed.

Lemma steer_frame_sets_reference_only_witness :
  exists w',
    tick (inputs_of fzero fzero (Data (chr "d") (flt 1 (-2)) 0))
         (world_in IDLE 0) = Some w'
    /\ refs w' = mkRefs fzero (flt 1 (-2)) fzero.
Proof.
  eexists. split; [vm_compute; reflexivity|].
  refine (proj1 (steer_frame_sets_reference_only
            (inputs_of fzero fzero (Data (chr "d") (flt 1 (-2)) 0))
            (world_in IDLE 0) _ (chr "d") (flt 1 (-2)) 0
            eq_refl eq_refl _)).
  vm_compute. reflexivity.
Defined.

(** X14: a frame whose tag is none of 's', 'd', 'c' is ignored: the tick
    does exactly what it does when nothing is available on the channel. *)
Theorem unknown_tag_is_ignored i w c x n :
  c <> chr "s" -> c <> chr "d" -> c <> chr "c" ->
  tick (with_telemetry (Data c x n) i) w = tick (with_telemetry NoData i) w.
Proof.
  intros Hs Hd Hc.
  apply Z.eqb_neq in Hs. apply Z.eqb_neq in Hd. apply Z.eqb_neq in Hc.
  unfold tick, loop, poll_commands. cbn [in_telemetry with_telemetry].
  rewrite Hs, Hd, Hc. reflexivity.
Qed.

Lemma unknown_tag_is_ignored_witness :
  tick (with_telemetry (Data (chr "x") (flt 3 0) 255)
                       (inputs_of fzero fzero NoData)) (world_in IDLE 0)
  = tick (with_telemetry NoData (inputs_of fzero fzero NoData))
         (world_in IDLE 0).
Proof.
  apply unknown_tag_is_ignored; vm_compute; discriminate.
Defined.

(** X15: when the payload byte of a request frame is not there yet, so
    that Serial.read() returns -1, the frame raises every bit: the register
    ends the tick at 255, in every state. *)
Theorem request_frame_without_payload_sets_all i w w' c x :
  in_telemetry i = Data c x (-1) ->
  c = chr "c" ->
  tick i w = Some w' ->
  user_req w' = 255.
Proof.
  intros Hf -> Ht.
  destruct (tick_requests i w w' Ht) as (u1 & Hu & _).
  rewrite Hu. unfold polled_requests. rewrite Hf, Z.eqb_refl.
  now rewrite Z.lor_m1_r.
Qed.

Lemma request_frame_without_payload_sets_all_witness :
  exists w',
    tick (inputs_of fzero fzero (Data (chr "c") fzero (-1)))
         (world_in IDLE 0) = Some w'
    /\ user_req w' = 255.
Proof.
  eexists. split; [vm_compute; reflexivity|].
  apply (request_frame_without_payload_sets_all
           (inputs_of fzero fzero (Data (chr "c") fzero (-1)))
           (world_in IDLE 0) _ (chr "c") fzero eq_refl eq_refl).
  vm_compute. reflexivity.
Defined.

Lemma reachable_phi_r w : reachable w -> phi_r (refs w) = fzero.
Proof.
  induction 1 as [tm dm|w i w' Hr IH Ht].
  - reflexivity.
  - destruct (tick_effects i w w' Ht) as (_ & _ & _ & _ & Hrefs).
    rewrite Hrefs. unfold polled_refs.
    destruct (in_telemetry i) as [|c parsed next]; [assumption|].
    destruct (c =? chr "s"); [assumption|].
    destruct (c =? chr "d"); assumption.
Qed.

(** X16: nothing ever writes the lean reference: in every reachable world
    it is still 0, so automatic() always asks the controller for an upright
    vehicle. *)
Theorem lean_reference_is_always_zero w :
  reachable w -> phi_r (refs w) = fzero.
Proof. apply reachable_phi_r. Qed.

Lemma lean_reference_is_always_zero_witness :
  exists w',
    tick (inputs_of fzero fzero speed_command) (power_on OP_PROFILE_TORQUE)
    = Some w'
    /\ phi_r (refs w') = fzero.
Proof.
  eexists. split; [vm_compute; reflexivity|].
  apply lean_reference_is_always_zero.
  apply (reach_tick (power_on OP_PROFILE_TORQUE)
                    (inputs_of fzero fzero speed_command)).
  - apply reach_booted.
  - vm_compute. reflexivity.
Defined.

Arguments acknowledgments : simpl never.

(** ** Indicator colours and actuator enablement *)

Lemma shown_and_enabled_tick i w w' :
  shown_and_enabled w -> tick i w = Some w' -> shown_and_enabled w'.
Proof.
  intros [Hcol Hen] H. unfold state_colours in Hcol.
  run_tick H; inversion H; subst; clear H; unfold shown_and_enabled; cbn;
    (split;
     [ first [ reflexivity
             | discriminate Hcol
             | revert Hcol; use_guards; intro Hcol;
               unfold state_colours; use_guards; exact Hcol ]
     | intro Hx; first [reflexivity | exfalso; eqb_props; state_lia
                       | eqb_props; apply Hen; state_lia ] ]).
Qed.

Lemma reachable_shown_and_enabled w :
  (forall tm dm, shown_and_enabled (booted tm dm)) ->
  reachable w -> shown_and_enabled w.
Proof.
  intros Hb. induction 1 as [tm dm|w i w' Hr IH Ht].
  - apply Hb.
  - eapply shown_and_enabled_tick; eauto.
Qed.

Lemma booted_shown_and_enabled tm dm : shown_and_enabled (booted tm dm).
Proof. split; [reflexivity|]. cbn. intro Hx. exfalso. state_lia. Qed.

(** X17: in every reachable world the indicator shows the passive and the
    blink colour of the current state: every transition sets both, and a
    transition that is overwritten in the same tick has its colours
    overwritten too. *)
Theorem indicator_shows_state_colours w :
  reachable w ->
  state_colours (state w)
  = Some (ind_passive (indicator w), ind_blink (indicator w)).
Proof.
  intro Hr.
  apply (reachable_shown_and_enabled w booted_shown_and_enabled Hr).
Qed.

Lemma indicator_shows_state_colours_witness :
  exists w',
    tick (inputs_of (flt 1 0) (flt 3 (-1)) NoData)
         (power_on OP_PROFILE_TORQUE) = Some w'
    /\ state w' = ASSIST
    /\ state_colours (state w')
       = Some (ind_passive (indicator w'), ind_blink (indicator w')).
Proof.
  eexists. split; [vm_compute; reflexivity|]. split; [reflexivity|].
  apply indicator_shows_state_colours.
  apply (reach_tick (power_on OP_PROFILE_TORQUE)
                    (inputs_of (flt 1 0) (flt 3 (-1)) NoData)).
  - apply reach_booted.
  - vm_compute. reflexivity.
Defined.

(** X18: in every reachable world in state Assisted, Manual or Autonomous
    the last answer of the balance actuator to enableOperation() was
    positive: these states are only entered through the wait. *)
Theorem control_states_have_enabled_actuator w :
  reachable w ->
  state w = ASSIST \/ state w = MANUAL \/ state w = AUTO ->
  tm_enabled (torque_motor w) = true.
Proof.
  intro Hr.
  apply (reachable_shown_and_enabled w booted_shown_and_enabled Hr).
Qed.

Lemma control_states_have_enabled_actuator_witness :
  exists w',
    tick (inputs_of fzero fzero (request_command R_MANUAL))
         (power_on OP_PROFILE_TORQUE) = Some w'
    /\ exists w'',
         tick (inputs_of fzero fzero NoData) w' = Some w''
         /\ state w'' = MANUAL
         /\ tm_enabled (torque_motor w'') = true.
Proof.
  eexists. split; [vm_compute; reflexivity|].
  eexists. split; [vm_compute; reflexivity|]. split; [reflexivity|].
  apply control_states_have_enabled_actuator; [|right; left; reflexivity].
  eapply (reach_tick _ (inputs_of fzero fzero NoData)).
  - apply (reach_tick (power_on OP_PROFILE_TORQUE)
                      (inputs_of fzero fzero (request_command R_MANUAL))).
    + apply reach_booted.
    + vm_compute. reflexivity.
  - vm_compute. reflexivity.
Defined.

(** X19: the pulse is not undone when a transition is overwritten.  From
    Idle, when the fall guard and the speed guard both fire and
    RequestCalibrate is not set, the tick ends in Assisted or Manual with
    the fallen pulse (500, 1500) still armed. *)
Theorem overwritten_fall_leaves_pulse_armed i w w' :
  state w = IDLE ->
  fgt (fabs (in_phi i)) FTHRESH = true ->
  fgt (to_double (in_speed i)) (dbl 1 0) = true ->
  bit_set R_CALIB (user_req w) = false ->
  tick i w = Some w' ->
  (state w' = ASSIST \/ state w' = MANUAL)
  /\ ind_pulse (indicator w') = Some (500, 1500).
Proof.
  intros Hs Hphi Hv Hc H.
  run_tick_from Hs H; try congruence; inversion H; subst; clear H; cbn;
    split; auto.
Qed.

Lemma overwritten_fall_leaves_pulse_armed_witness :
  exists w',
    tick (inputs_of (flt 1 0) (flt 3 (-1)) NoData) (world_in IDLE 0) = Some w'
    /\ state w' = ASSIST
    /\ ind_pulse (indicator w') = Some (500, 1500).
Proof.
  eexists. split; [vm_compute; reflexivity|]. split; [reflexivity|].
  refine (proj2 (overwritten_fall_leaves_pulse_armed
            (inputs_of (flt 1 0) (flt 3 (-1)) NoData) (world_in IDLE 0) _
            eq_refl eq_refl eq_refl eq_refl _)).
  vm_compute. reflexivity.
Defined.

(** ** When a tick returns *)

Lemma acknowledgments_refused n l :
  acknowledgments (repeat false n ++ l) = acknowledgments l.
Proof. induction n as [|n IH]; simpl; auto. Qed.

Lemma acknowledgments_accepted l :
  acknowledgments (true :: l) = S (acknowledgments l).
Proof. reflexivity. Qed.

Ltac count_acknowledgments :=
  repeat match goal with
         | Ha : ?r = repeat false _ ++ true :: _ |- _ =>
             is_var r; subst r
         end;
  repeat match goal with
         | Ha : in_acks _ = _ |- _ => rewrite Ha
         end;
  repeat (rewrite ?acknowledgments_refused, ?acknowledgments_accepted);
  repeat match goal with
         | Hz : acknowledgments _ = 0%nat |- _ => rewrite Hz
         end.

Lemma wait_loop_never acks : forall w,
  TM.wait_loop acks w = None -> acknowledgments acks = 0%nat.
Proof.
  induction acks as [|ok acks IH]; intros w H; [reflexivity|].
  unfold TM.wait_loop in H. fold TM.wait_loop in H.
  destruct ok; [discriminate|]. cbn. eauto.
Qed.

Lemma tick_returned_was_acknowledged i w w' :
  tick i w = Some w' ->
  (mode_switches (state w) (in_speed i) (user_req w)
   <= acknowledgments (in_acks i))%nat.
Proof.
  intro H.
  run_tick H; clear H; unfold mode_switches; eqb_props;
    repeat match goal with
           | Hs : state w = _ |- _ => rewrite Hs
           end;
    cbn; decide_state; use_guards;
    count_acknowledgments; cbn; lia.
Qed.

Lemma tick_stalled_was_refused i w :
  tick i w = None ->
  (acknowledgments (in_acks i)
   < mode_switches (state w) (in_speed i) (user_req w))%nat.
Proof.
  intro H.
  run_tick H; clear H; unfold mode_switches; eqb_props;
    repeat match goal with
           | Hs : state w = _ |- _ => rewrite Hs
           end;
    cbn; decide_state; use_guards;
    match goal with
    | Hw : TM.wait_loop _ _ = None |- _ => apply wait_loop_never in Hw
    end;
    count_acknowledgments; cbn; lia.
Qed.

(** X20: a tick returns exactly when the balance actuator acknowledges as
    often as the tick switches the actuator mode: once for Idle with speed
    above 1.0, once more for Idle with RequestManual, once for Assisted above
    2.5 and for Autonomous below 2.0, and never otherwise.  With fewer
    acknowledgments the tick never returns; there is no timeout. *)
Theorem tick_returns_iff_acknowledged i w :
  (exists w', tick i w = Some w')
  <-> (mode_switches (state w) (in_speed i) (user_req w)
       <= acknowledgments (in_acks i))%nat.
Proof.
  split.
  - intros [w' H]. now apply (tick_returned_was_acknowledged i w w').
  - intro Hk. destruct (tick i w) as [w'|] eqn:H; [eauto|].
    apply tick_stalled_was_refused in H. lia.
Qed.

(** ** Lean angles that are not numbers *)

Lemma nan_is_not_over : fgt (fabs S754_nan) FTHRESH = false.
Proof. reflexivity. Qed.

Lemma nan_is_not_upright : flt_than (fabs S754_nan) UTHRESH = false.
Proof. reflexivity. Qed.

(** X21: when the lean angle read is not a number, both lean guards are
    false: no tick enters Fallen, and a tick that starts in Fallen stays
    there. *)
Theorem nan_lean_fires_no_lean_guard i w w' :
  in_phi i = S754_nan ->
  tick i w = Some w' ->
  (state w <> FALLEN -> state w' <> FALLEN)
  /\ (state w = FALLEN -> state w' = FALLEN).
Proof.
  intros Hphi Ht. rewrite (tick_next_state i w w' Ht), Hphi.
  unfold next_state. rewrite nan_is_not_over, nan_is_not_upright.
  split; intro Hs.
  - repeat match goal with
           | |- context [state w =? ?k] => destruct (Z.eqb_spec (state w) k)
           end;
      repeat match goal with
             | |- context [if ?b then _ else _] => destruct b
             end; state_lia.
  - rewrite Hs. reflexivity.
Qed.

Lemma nan_lean_fires_no_lean_guard_witness :
  exists w',
    tick (inputs_of S754_nan (flt 3 0) NoData) (world_in AUTO 0) = Some w'
    /\ state w' <> FALLEN.
Proof.
  eexists. split; [vm_compute; reflexivity|].
  refine (proj1 (nan_lean_fires_no_lean_guard
                   (inputs_of S754_nan (flt 3 0) NoData)
                   (world_in AUTO 0) _ eq_refl _) _).
  - vm_compute. reflexivity.
  - cbn. discriminate.
Defined.

(** ** The speed guards of Assisted *)

Lemma high_threshold_bits :
  HIGH_V_THRESH = S754_finite false 5629499534213120 (-51).
Proof. vm_compute. reflexivity. Qed.

Lemma half_bits : dbl 1 (-1) = S754_finite false 4503599627370496 (-53).
Proof. vm_compute. reflexivity. Qed.

Lemma finite_lt_exponents m1 e1 m2 e2 :
  SFltb (S754_finite false m1 e1) (S754_finite false m2 e2) = true ->
  e1 <= e2.
Proof.
  unfold SFltb, SFcompare.
  destruct (Z.compare_spec e1 e2); intros; try lia; discriminate.
Qed.

Lemma above_high_is_not_below_half x :
  fgt x HIGH_V_THRESH = true -> flt_than x (dbl 1 (-1)) = false.
Proof.
  unfold fgt, flt_than. rewrite high_threshold_bits, half_bits.
  destruct x as [s|s| |s m e]; try (destruct s); try reflexivity;
    try (intro H; discriminate H).
  intro H. apply finite_lt_exponents in H.
  destruct (SFltb (S754_finite false m e)
              (S754_finite false 4503599627370496 (-53))) eqn:E;
    [|reflexivity].
  apply finite_lt_exponents in E. lia.
Qed.

(** X22: in Assisted the high-speed guard and the low-speed guard never
    fire together.  A tick from Assisted with speed above 2.5 ends in
    Autonomous, or in EmergencyStop on a stop request, with the balance
    actuator in torque mode; it never ends in Idle. *)
Theorem assisted_above_high_speed_goes_autonomous i w w' :
  state w = ASSIST ->
  fgt (to_double (in_speed i)) HIGH_V_THRESH = true ->
  tick i w = Some w' ->
  state w' = (if bit_set R_STOP (user_req w) then E_STOP else AUTO)
  /\ tm_mode (torque_motor w') = OP_PROFILE_TORQUE.
Proof.
  intros Hs Hv H.
  pose proof (above_high_is_not_below_half _ Hv) as Hlow.
  run_tick_from Hs H; try congruence; inversion H; subst; clear H; cbn;
    use_guards; split; reflexivity.
Qed.

Lemma assisted_above_high_speed_goes_autonomous_witness :
  exists w',
    tick (inputs_of fzero (flt 3 0) NoData) (world_in ASSIST 0) = Some w'
    /\ state w' = AUTO
    /\ tm_mode (torque_motor w') = OP_PROFILE_TORQUE.
Proof.
  eexists. split; [vm_compute; reflexivity|].
  apply (assisted_above_high_speed_goes_autonomous
           (inputs_of fzero (flt 3 0) NoData) (world_in ASSIST 0));
    vm_compute; reflexivity.
Defined.

(** ** The tick that changes the control law *)

(** X23: the action of the state a tick started in runs after the mode
    switch of that tick.  The tick that leaves Autonomous (speed below 2.0)
    first switches the balance actuator to position mode and then still
    commands a torque; the tick that leaves Assisted for Autonomous (speed
    above 2.5) first switches it to torque mode and then still commands a
    position. *)
Theorem old_action_runs_after_mode_switch i w w' :
  tick i w = Some w' ->
  (state w = AUTO ->
   flt_than (to_double (in_speed i)) LOW_V_THRESH = true ->
   tm_mode (torque_motor w') = OP_PROFILE_POSITION
   /\ exists u post,
        trace w' = trace w ++ Ev_setMode OP_PROFILE_POSITION :: post
        /\ In (Ev_setTorque u) post)
  /\ (state w = ASSIST ->
      fgt (to_double (in_speed i)) HIGH_V_THRESH = true ->
      tm_mode (torque_motor w') = OP_PROFILE_TORQUE
      /\ exists x post,
           trace w' = trace w ++ Ev_setMode OP_PROFILE_TORQUE :: post
           /\ In (Ev_setPosition x) post).
Proof.
  intro H. split; intros Hs Hv;
    run_tick_from Hs H; try congruence; inversion H; subst; clear H; cbn;
    (split; [reflexivity|]); rewrite <- ?app_assoc; cbn;
    eexists; eexists; (split; [reflexivity|]);
    rewrite ?in_app_iff; cbn; eauto 10.
Qed.

Lemma old_action_runs_after_mode_switch_witness :
  exists w',
    tick (inputs_of fzero (flt 3 (-1)) NoData) (world_in AUTO 0) = Some w'
    /\ state w' = ASSIST
    /\ tm_mode (torque_motor w') = OP_PROFILE_POSITION
    /\ torques_of (trace w') = [fzero].
Proof.
  eexists. split; [vm_compute; reflexivity|]. split; [reflexivity|].
  split; [|reflexivity].
  refine (proj1 (proj1 (old_action_runs_after_mode_switch
                          (inputs_of fzero (flt 3 (-1)) NoData)
                          (world_in AUTO 0) _ _) eq_refl eq_refl)).
  vm_compute. reflexivity.
Defined.

(** ** Ticks without a transition *)

(** X24: a tick that starts in Idle, Manual, Assisted, Autonomous, Fallen
    or EmergencyStop and ends in the same state took no transition: the
    indicator, the actuator mode and its enablement are untouched, the
    switch gave the drive no command, and the request register only received
    what the command channel added. *)
Theorem unchanged_state_means_no_side_effect i w w' :
  defined_state (state w) ->
  tick i w = Some w' ->
  state w' = state w ->
  indicator w' = indicator w
  /\ tm_mode (torque_motor w') = tm_mode (torque_motor w)
  /\ tm_enabled (torque_motor w') = tm_enabled (torque_motor w)
  /\ speeds_of (trace w') = speeds_of (trace w) ++ frame_speed i
  /\ user_req w' = polled_requests i (user_req w).
Proof.
  intros Hd H Hsame. unfold defined_state in Hd.
  run_tick H; inversion H; subst; clear H; cbn in Hsame;
    unfold frame_speed, polled_requests; cbn;
    rewrite ?speeds_of_app, ?speeds_of_polls; cbn;
    decide_frame; eqb_props; try (exfalso; state_lia);
    rewrite ?app_nil_r, <- ?app_assoc; cbn;
    repeat split; try reflexivity; now destruct (indicator w).
Qed.

Lemma unchanged_state_means_no_side_effect_witness :
  exists w',
    tick (inputs_of fzero (flt 9 (-2)) NoData) (world_in AUTO 0) = Some w'
    /\ state w' = AUTO
    /\ indicator w' = indicator (world_in AUTO 0).
Proof.
  eexists. split; [vm_compute; reflexivity|]. split; [reflexivity|].
  refine (proj1 (unchanged_state_means_no_side_effect
                   (inputs_of fzero (flt 9 (-2)) NoData) (world_in AUTO 0)
                   _ _ _ _)).
  - change (0 <= 4 <= 6). lia.
  - vm_compute. reflexivity.
  - reflexivity.
Defined.

(** ** Stop requests and torque commands, with the wait *)




